(** * webgpu-bg: the renderer engine behind [createBackground]

    A shallow embedding of [webgpuBackground.ts] (both the descriptor-driven
    engine [createBackground] and the earlier fixed-shader engine
    [createWebGPUProceduralBackground]) and of the [perlinNoise1] renderer
    descriptor, followed by the properties of the engine: surface
    configuration, the frame loop, the controller life cycle, initialisation
    failures and the uniform buffer layout.

    Conventions of the model.
    - A JavaScript [number] is an exact rational ([Q]): arithmetic is exact,
      and [NaN] and the infinities do not occur as numbers.
    - An object used as a [Record<string, number>] is a [gmap string Q].
    - A [Float32Array] is a list of cells; a cell is a binary32 number or
      the [NaN] a store of [undefined] leaves.  The conversion applied by an
      element store (rounding a double to binary32) is the class [Float32]
      the development is parametric in.
    - The closure of [createBackground] is a record of its [let] variables;
      the host (DOM, clock, animation-frame queue, GPU queue) is explicit
      state, and everything the engine does to it is appended to a trace. *)

From Stdlib Require Import QArith Qminmax Qround ZArith Lia Lqa.
From stdpp Require Import gmap strings list.

(** ** JavaScript numbers *)

Module Js.

(** [Math.max], [Math.min] and [Math.floor] on numbers. *)
Definition Math_max (a b : Q) : Q := Qmax a b.
Definition Math_min (a b : Q) : Q := Qmin a b.
Definition Math_floor (x : Q) : Q := inject_Z (Qfloor x).


(** [v || d] *)
Definition or_else (v : option Q) (d : Q) : Q :=
  match v with
  | Some q => if Qeq_bool q 0 then d else q
  | None => d
  end.

(** [{ ...a, ...b }]: a fresh object with the properties of [a]
    overwritten by those of [b]. *)
Definition spread (a b : gmap string Q) : gmap string Q := b ∪ a.

(** [v ?? d] *)
Definition nullish {A} (v : option A) (d : A) : A :=
  match v with
  | Some a => a
  | None => d
  end.

End Js.

(** ** Typed arrays *)

(** A cell of a [Float32Array]. *)
Inductive f32 : Type :=
| f32_num (q : Q)
| f32_nan.

(** Rounding of a number to the nearest binary32 value, as done by every
    store into a [Float32Array]. *)
Class Float32 := fround : Q -> Q.

Section TypedArray.
Context {F : Float32}.

(** The cell stored by [buf[i] = v]: [ToNumber(undefined)] is [NaN]. *)
Definition to_f32 (v : option Q) : f32 :=
  match v with
  | Some q => f32_num (fround q)
  | None => f32_nan
  end.

(** [buf[i] = v] on a typed array: a store past the end is ignored. *)
Definition store (buf : list f32) (i : nat) (v : option Q) : list f32 :=
  <[i := to_f32 v]> buf.

(** [new Float32Array(n)] *)
Definition Float32Array_new (n : nat) : list f32 := replicate n (f32_num 0).

(** [new Float32Array([x0, x1, ...])] *)
Definition Float32Array_of (xs : list Q) : list f32 :=
  map (fun x => f32_num (fround x)) xs.

End TypedArray.

(** ** Renderer descriptors (renderer.ts, renderers/perlinNoise1.ts) *)

Module Renderer.

(** [RendererDescriptor<P>]; the WGSL source is opaque to the engine and
    left out. *)
Record RendererDescriptor := {
  id : string;
  defaultParams : gmap string Q;
  uniformFloats : nat;
  writeUniforms :
    list f32 -> Q -> Q -> Q -> Q -> gmap string Q -> list f32
}.

End Renderer.

(** [RendererName]: the keys of the registry. *)
Inductive RendererName : Type := PerlinNoise1.

Section PerlinNoise1.
Context {F : Float32}.

(** The fields of [defaultParams], in the order they are declared. *)
Definition perlinNoise1_defaults : list (string * Q) :=
  [ ("baseR", 0.06); ("baseG", 0.08); ("baseB", 0.12);
    ("colAr", 0.10); ("colAg", 0.35); ("colAb", 0.85);
    ("colBr", 0.85); ("colBg", 0.25); ("colBb", 0.55);
    ("speed", 0.15);
    ("_pad0", 0); ("_pad1", 0) ]%Q.

Definition perlinNoise1_writeUniforms
    (buf : list f32) (time width height dpr : Q) (p : gmap string Q)
    : list f32 :=
  let buf := store buf 0 (Some time) in
  let buf := store buf 1 (Some width) in
  let buf := store buf 2 (Some height) in
  let buf := store buf 3 (Some dpr) in
  let buf := store buf 4 (p !! "baseR") in
  let buf := store buf 5 (p !! "baseG") in
  let buf := store buf 6 (p !! "baseB") in
  let buf := store buf 7 (p !! "colAr") in
  let buf := store buf 8 (p !! "colAg") in
  let buf := store buf 9 (p !! "colAb") in
  let buf := store buf 10 (p !! "colBr") in
  let buf := store buf 11 (p !! "colBg") in
  let buf := store buf 12 (p !! "colBb") in
  let buf := store buf 13 (p !! "speed") in
  buf.

Definition perlinNoise1 : Renderer.RendererDescriptor := {|
  Renderer.id := "perlinNoise1";
  Renderer.defaultParams := list_to_map perlinNoise1_defaults;
  Renderer.uniformFloats := 16;
  Renderer.writeUniforms := perlinNoise1_writeUniforms
|}.

(** [renderers] (renderers/index.ts). *)
Definition renderers (n : RendererName) : Renderer.RendererDescriptor :=
  match n with
  | PerlinNoise1 => perlinNoise1
  end.

End PerlinNoise1.

(** ** The engine (webgpuBackground.ts) *)

Inductive PowerPreference : Type := LowPower | HighPerformance.

Module Options.
(** [Options]; every field is optional. *)
Record Options := {
  powerPreference : option PowerPreference;
  respectReducedMotion : option bool;
  maxDpr : option Q
}.
End Options.

(** What the host answers during initialisation. *)
Record Platform := {
  (** ["gpu" in navigator] *)
  gpu : bool;
  (** whether [navigator.gpu.requestAdapter] resolves to an adapter *)
  requestAdapter : PowerPreference -> bool;
  (** whether [canvas.getContext("webgpu")] is a context *)
  getContext : bool;
  (** [None] when [matchMedia] is not a function, else [.matches] of the
      reduced-motion query *)
  matchMedia : option bool
}.

(** The ambient values the engine reads and never writes. *)
Record Host := {
  clientWidth : Q;
  clientHeight : Q;
  devicePixelRatio : option Q;
  hidden : bool;
  now : Q
}.

(** Everything the engine does to the host, in order. *)
Inductive Effect : Type :=
| AddListener
| RequestAdapter (p : PowerPreference)
| RequestDevice
| GetContext
| CreateBuffer (bytes : nat)
| Observe
| CanvasResize (w h : Q)
| ContextConfigure
| WriteBuffer (data : list f32)
| Submit
| RequestFrame (handle : nat)
| CancelFrame (handle : nat)
| Disconnect
| RemoveListener
| BufferDestroy.

(** The constants of the closure. *)
Record Config := {
  descriptor : Renderer.RendererDescriptor;
  maxDpr : Q;
  shouldAnimate : bool
}.

(** The [let] variables of the closure, with the objects it owns. *)
Record Vars := {
  mergedParams : gmap string Q;
  pausedByVisibility : bool;
  uniformData : list f32;
  width : Q;
  height : Q;
  dpr : Q;
  rafId : option nat;
  startTime : Q
}.

(** The host objects the engine acts on: the animation-frame queue, the two
    observers and the trace of calls. *)
Record World := {
  pending : list nat;
  next_handle : nat;
  observing : bool;
  listening : bool;
  trace : list Effect
}.

Record State := {
  host : Host;
  vars : Vars;
  world : World
}.

Definition set_vars (f : Vars -> Vars) (s : State) : State :=
  {| host := host s; vars := f (vars s); world := world s |}.

Definition set_world (f : World -> World) (s : State) : State :=
  {| host := host s; vars := vars s; world := f (world s) |}.

Definition set_host (h : Host) (s : State) : State :=
  {| host := h; vars := vars s; world := world s |}.

Definition set_mergedParams (p : gmap string Q) : State -> State :=
  set_vars (fun v =>
    {| mergedParams := p; pausedByVisibility := pausedByVisibility v;
       uniformData := uniformData v; width := width v; height := height v;
       dpr := dpr v; rafId := rafId v; startTime := startTime v |}).

Definition set_pausedByVisibility (b : bool) : State -> State :=
  set_vars (fun v =>
    {| mergedParams := mergedParams v; pausedByVisibility := b;
       uniformData := uniformData v; width := width v; height := height v;
       dpr := dpr v; rafId := rafId v; startTime := startTime v |}).

Definition set_uniformData (d : list f32) : State -> State :=
  set_vars (fun v =>
    {| mergedParams := mergedParams v;
       pausedByVisibility := pausedByVisibility v;
       uniformData := d; width := width v; height := height v;
       dpr := dpr v; rafId := rafId v; startTime := startTime v |}).

Definition set_geometry (w h r : Q) : State -> State :=
  set_vars (fun v =>
    {| mergedParams := mergedParams v;
       pausedByVisibility := pausedByVisibility v;
       uniformData := uniformData v; width := w; height := h;
       dpr := r; rafId := rafId v; startTime := startTime v |}).

Definition set_rafId (r : option nat) : State -> State :=
  set_vars (fun v =>
    {| mergedParams := mergedParams v;
       pausedByVisibility := pausedByVisibility v;
       uniformData := uniformData v; width := width v; height := height v;
       dpr := dpr v; rafId := r; startTime := startTime v |}).

Definition set_startTime (t : Q) : State -> State :=
  set_vars (fun v =>
    {| mergedParams := mergedParams v;
       pausedByVisibility := pausedByVisibility v;
       uniformData := uniformData v; width := width v; height := height v;
       dpr := dpr v; rafId := rafId v; startTime := t |}).

(** Appends one call to the trace. *)
Definition emit (e : Effect) : State -> State :=
  set_world (fun w =>
    {| pending := pending w; next_handle := next_handle w;
       observing := observing w; listening := listening w;
       trace := trace w ++ [e] |}).

(** [requestAnimationFrame(tick)]: a fresh handle, queued. *)
Definition requestAnimationFrame (s : State) : nat * State :=
  let h := next_handle (world s) in
  (h, emit (RequestFrame h)
        (set_world (fun w =>
           {| pending := pending w ++ [h]; next_handle := S h;
              observing := observing w; listening := listening w;
              trace := trace w |}) s)).

(** [cancelAnimationFrame(h)] *)
Definition cancelAnimationFrame (h : nat) (s : State) : State :=
  emit (CancelFrame h)
    (set_world (fun w =>
       {| pending := filter (fun x => x <> h) (pending w);
          next_handle := next_handle w;
          observing := observing w; listening := listening w;
          trace := trace w |}) s).

(** [ro.disconnect()] *)
Definition ro_disconnect (s : State) : State :=
  emit Disconnect
    (set_world (fun w =>
       {| pending := pending w; next_handle := next_handle w;
          observing := false; listening := listening w;
          trace := trace w |}) s).

(** [document.removeEventListener("visibilitychange", onVisibility)] *)
Definition removeEventListener (s : State) : State :=
  emit RemoveListener
    (set_world (fun w =>
       {| pending := pending w; next_handle := next_handle w;
          observing := observing w; listening := false;
          trace := trace w |}) s).

(** [uniformBuffer.destroy()] *)
Definition uniformBuffer_destroy (s : State) : State := emit BufferDestroy s.

Section Engine.
Variable cfg : Config.

Definition configure (s : State) : State :=
  let dpr :=
    Js.Math_max 1
      (Js.Math_min (maxDpr cfg) (Js.or_else (devicePixelRatio (host s)) 1)) in
  let cssW := Js.Math_max 1 (Js.Math_floor (clientWidth (host s))) in
  let cssH := Js.Math_max 1 (Js.Math_floor (clientHeight (host s))) in
  let width := Js.Math_max 1 (Js.Math_floor (cssW * dpr)) in
  let height := Js.Math_max 1 (Js.Math_floor (cssH * dpr)) in
  let s := set_geometry width height dpr s in
  let s := emit (CanvasResize width height) s in
  emit ContextConfigure s.

(** The render pass is fixed (clear to opaque black, draw 3 vertices, one
    instance), so a submission is recorded as [Submit]. *)
Definition drawFrame (timeSeconds : Q) (s : State) : State :=
  let v := vars s in
  let data :=
    Renderer.writeUniforms (descriptor cfg) (uniformData v) timeSeconds
      (width v) (height v) (dpr v) (mergedParams v) in
  let s := set_uniformData data s in
  let s := emit (WriteBuffer data) s in
  emit Submit s.

Definition tick (s : State) : State :=
  let s :=
    if negb (pausedByVisibility (vars s))
    then drawFrame ((now (host s) - startTime (vars s)) / 1000) s
    else s in
  let '(h, s) := requestAnimationFrame s in
  set_rafId (Some h) s.

Definition start (s : State) : State :=
  match rafId (vars s) with
  | Some _ => s
  | None =>
      let s := set_startTime (now (host s)) s in
      let s := configure s in
      if shouldAnimate cfg
      then let '(h, s) := requestAnimationFrame s in set_rafId (Some h) s
      else drawFrame 0 s
  end.

Definition stop (s : State) : State :=
  match rafId (vars s) with
  | None => s
  | Some h => set_rafId None (cancelAnimationFrame h s)
  end.

Definition destroy (s : State) : State :=
  let s := stop s in
  let s := ro_disconnect s in
  let s := removeEventListener s in
  uniformBuffer_destroy s.

(** [onVisibility] *)
Definition onVisibility (s : State) : State :=
  set_pausedByVisibility (hidden (host s)) s.

End Engine.

(** *** The earlier engine ([createWebGPUProceduralBackground])

    It has no descriptor: the four standard uniforms are written from a fresh
    array each frame.  [configure], [start], [stop] and [destroy] are, line by
    line, those of [createBackground]. *)

Module Legacy.
Section Legacy.
Context {F : Float32}.

Definition drawFrame (timeSeconds : Q) (s : State) : State :=
  let v := vars s in
  let s :=
    emit (WriteBuffer
            (Float32Array_of [timeSeconds; width v; height v; dpr v])) s in
  emit Submit s.

Definition tick (s : State) : State :=
  if pausedByVisibility (vars s)
  then
    let '(h, s) := requestAnimationFrame s in
    set_rafId (Some h) s
  else
    let t := ((now (host s) - startTime (vars s)) / 1000)%Q in
    let s := drawFrame t s in
    let '(h, s) := requestAnimationFrame s in
    set_rafId (Some h) s.

End Legacy.
End Legacy.

(** *** Initialisation *)

(** The members of the object [createBackground] returns. *)
Inductive Method : Type := Start | Stop | Destroy.

(** The outcome of [createBackground]: the promise rejects with an [Error]
    (after the calls [done]), or resolves to a controller over a closure. *)
Inductive Result : Type :=
| Throw (message : string) (done : list Effect)
| Return (cfg : Config) (s : State) (controller : gmap string Method).

(** The closure as [createBackground] has built it when it reaches its last
    statements: the variables at their initialisers, both observers
    registered, no frame requested yet. *)
Definition closure
    (h : Host) (descriptor : Renderer.RendererDescriptor)
    (mergedParams : gmap string Q) (done : list Effect) : State :=
  {| host := h;
     vars :=
       {| mergedParams := mergedParams;
          pausedByVisibility := hidden h;
          uniformData := Float32Array_new (Renderer.uniformFloats descriptor);
          width := 1; height := 1; dpr := 1;
          rafId := None;
          startTime := now h |};
     world :=
       {| pending := []; next_handle := 1;
          observing := true; listening := true;
          trace := done |} |}.

Section Init.
Context {F : Float32}.

(** The host is taken to stand still while the promise is pending. *)
Definition createBackground
    (plat : Platform) (h : Host) (rendererName : RendererName)
    (params : gmap string Q) (opts : Options.Options) : Result :=
  if negb (gpu plat)
  then Throw "WebGPU not supported in this browser (navigator.gpu missing)." []
  else
    let descriptor := renderers rendererName in
    let mergedParams :=
      Js.spread (Renderer.defaultParams descriptor) params in
    let powerPreference :=
      Js.nullish (Options.powerPreference opts) LowPower in
    let respectReducedMotion :=
      Js.nullish (Options.respectReducedMotion opts) true in
    let maxDpr := Js.nullish (Options.maxDpr opts) 3%Q in
    let prefersReducedMotion :=
      match matchMedia plat with
      | Some matches => matches
      | None => false
      end in
    let shouldAnimate :=
      negb respectReducedMotion || negb prefersReducedMotion in
    (* let pausedByVisibility = document.hidden: see [closure] *)
    let done := [AddListener; RequestAdapter powerPreference] in
    if negb (requestAdapter plat powerPreference)
    then Throw "No WebGPU adapter available." done
    else
      let done := done ++ [RequestDevice; GetContext] in
      if negb (getContext plat)
      then Throw "Could not get WebGPU canvas context." done
      else
        let done :=
          done ++ [CreateBuffer (Renderer.uniformFloats descriptor * 4);
                   Observe] in
        let cfg :=
          {| descriptor := descriptor; maxDpr := maxDpr;
             shouldAnimate := shouldAnimate |} in
        let s := closure h descriptor mergedParams done in
        Return cfg (configure cfg s)
          (list_to_map
             [("start", Start); ("stop", Stop); ("destroy", Destroy)]).

(** Calling a member of the controller. *)
Definition call (cfg : Config) (m : Method) : State -> State :=
  match m with
  | Start => start cfg
  | Stop => stop
  | Destroy => destroy
  end.

End Init.

(** *** The host's side: what can happen to a running engine *)

Inductive Event : Type :=
| Call (m : Method)
| Frame (handle : nat)
| VisibilityChange (hidden : bool)
| Layout (clientWidth clientHeight : Q) (devicePixelRatio : option Q)
| Resize
| Clock (t : Q).

Section Run.
Context {F : Float32}.
Variable cfg : Config.

(** The browser takes a queued callback off the queue before running it. *)
Definition dequeue (h : nat) : State -> State :=
  set_world (fun w =>
    {| pending := filter (fun x => x <> h) (pending w);
       next_handle := next_handle w;
       observing := observing w; listening := listening w;
       trace := trace w |}).

(** One event; [None] when the host cannot produce it in this state. *)
Definition step (e : Event) (s : State) : option State :=
  match e with
  | Call m => Some (call cfg m s)
  | Frame h =>
      if bool_decide (h ∈ pending (world s))
      then Some (tick cfg (dequeue h s))
      else None
  | VisibilityChange b =>
      let hs := host s in
      let s :=
        set_host
          {| clientWidth := clientWidth hs; clientHeight := clientHeight hs;
             devicePixelRatio := devicePixelRatio hs;
             hidden := b; now := now hs |} s in
      Some (if listening (world s) then onVisibility s else s)
  | Layout w h r =>
      let hs := host s in
      Some (set_host
              {| clientWidth := w; clientHeight := h;
                 devicePixelRatio := r;
                 hidden := hidden hs; now := now hs |} s)
  | Resize =>
      Some (if observing (world s) then configure cfg s else s)
  | Clock t =>
      let hs := host s in
      if Qle_bool (now hs) t
      then Some (set_host
                   {| clientWidth := clientWidth hs;
                      clientHeight := clientHeight hs;
                      devicePixelRatio := devicePixelRatio hs;
                      hidden := hidden hs; now := t |} s)
      else None
  end.

Fixpoint run (es : list Event) (s : State) : option State :=
  match es with
  | [] => Some s
  | e :: es =>
      match step e s with
      | Some s' => run es s'
      | None => None
      end
  end.

(** The states of an engine created with the constants [cfg]. *)
Inductive reachable : State -> Prop :=
| reachable_init plat h n params opts s c :
    createBackground plat h n params opts = Return cfg s c ->
    reachable s
| reachable_step s e s' :
    reachable s -> step e s = Some s' -> reachable s'.

(** The browser runs the callback at the head of the queue. *)
Definition next_frame (s : State) : option State :=
  match pending (world s) with
  | h :: _ => step (Frame h) s
  | [] => None
  end.

Fixpoint frames (n : nat) (s : State) : option State :=
  match n with
  | O => Some s
  | S n =>
      match next_frame s with
      | Some s' => frames n s'
      | None => None
      end
  end.

End Run.

(** *** What a trace shows *)

Definition is_submit (e : Effect) : bool :=
  match e with Submit => true | _ => false end.

Definition is_write (e : Effect) : bool :=
  match e with WriteBuffer _ => true | _ => false end.

Definition is_request_frame (e : Effect) : bool :=
  match e with RequestFrame _ => true | _ => false end.

Definition is_buffer_destroy (e : Effect) : bool :=
  match e with BufferDestroy => true | _ => false end.

Definition is_request_adapter (e : Effect) : bool :=
  match e with RequestAdapter _ => true | _ => false end.

Definition count (p : Effect -> bool) (t : list Effect) : nat :=
  length (List.filter p t).

Arguments count : simpl never.

(** Frames submitted, callbacks scheduled and releases of the uniform
    buffer so far. *)
Definition submissions (s : State) : nat := count is_submit (trace (world s)).
Definition uploads (s : State) : nat := count is_write (trace (world s)).
Definition scheduled (s : State) : nat :=
  count is_request_frame (trace (world s)).
Definition releases (s : State) : nat :=
  count is_buffer_destroy (trace (world s)).

(** An exact binary32 conversion, for parameters that are binary32 values
    already. *)
Definition exact_f32 : Float32 := fun q => q.

(** A desktop host: an 800 by 600 surface at pixel ratio 2, visible. *)
Definition desktop : Host :=
  {| clientWidth := 800; clientHeight := 600; devicePixelRatio := Some 2%Q;
     hidden := false; now := 0 |}.

(** A host that supports everything; [reduce] is the reduced-motion
    preference. *)
Definition capable (reduce : bool) : Platform :=
  {| gpu := true; requestAdapter := fun _ => true; getContext := true;
     matchMedia := Some reduce |}.

Definition no_options : Options.Options :=
  {| Options.powerPreference := None; Options.respectReducedMotion := None;
     Options.maxDpr := None |}.




(** The calls [createBackground] has made when it succeeds with default
    options for [perlinNoise1]. *)
Definition init_calls : list Effect :=
  [AddListener; RequestAdapter LowPower; RequestDevice; GetContext;
   CreateBuffer 64; Observe].

(** The constants of a [perlinNoise1] engine with default options;
    [animate] is false under a reduced-motion preference. *)
Definition perlin_cfg (animate : bool) : Config :=
  {| descriptor := renderers (F := exact_f32) PerlinNoise1;
     maxDpr := 3; shouldAnimate := animate |}.

(** That engine as [createBackground] returns it on the host [h], with
    the overrides [params]. *)
Definition perlin_engine
    (animate : bool) (h : Host) (params : gmap string Q) : State :=
  configure (perlin_cfg animate)
    (closure h (renderers (F := exact_f32) PerlinNoise1)
       (Js.spread
          (Renderer.defaultParams (renderers (F := exact_f32) PerlinNoise1))
          params)
       init_calls).

(** main.ts: [createBackground(canvas, "perlinNoise1", {}, { powerPreference:
    "low-power", respectReducedMotion: true })]. *)
Definition main_options : Options.Options :=
  {| Options.powerPreference := Some LowPower;
     Options.respectReducedMotion := Some true;
     Options.maxDpr := None |}.


(** The desktop engine started, then hidden: [visibilitychange] has fired
    with [document.hidden] true. *)
Definition hidden_desktop_engine : State :=
  onVisibility
    (set_host
       {| clientWidth := 800; clientHeight := 600;
          devicePixelRatio := Some 2%Q; hidden := true; now := 0 |}
       (start (perlin_cfg true) (perlin_engine true desktop ∅))).

(** The frame queue holds exactly the callback [rafId] names. *)
Definition queue_matches (s : State) : Prop :=
  pending (world s)
  = match rafId (vars s) with
    | Some h => [h]
    | None => []
    end.

(** *** The earlier engine, complete (webgpuBackground.ts)

    [createWebGPUProceduralBackground] keeps no parameter object and no
    scratch array: those two variables of the closure stay empty. *)

Module Procedural.

(** The constants of its closure. *)
Record Consts := {
  maxDpr : Q;
  shouldAnimate : bool
}.

Inductive Result : Type :=
| Throw (message : string) (done : list Effect)
| Return (k : Consts) (s : State) (controller : gmap string Method).

Section Procedural.
Context {F : Float32}.
Variable k : Consts.

Definition configure (s : State) : State :=
  let dpr :=
    Js.Math_max 1
      (Js.Math_min (maxDpr k) (Js.or_else (devicePixelRatio (host s)) 1)) in
  let cssW := Js.Math_max 1 (Js.Math_floor (clientWidth (host s))) in
  let cssH := Js.Math_max 1 (Js.Math_floor (clientHeight (host s))) in
  let width := Js.Math_max 1 (Js.Math_floor (cssW * dpr)) in
  let height := Js.Math_max 1 (Js.Math_floor (cssH * dpr)) in
  let s := set_geometry width height dpr s in
  let s := emit (CanvasResize width height) s in
  emit ContextConfigure s.

Definition start (s : State) : State :=
  match rafId (vars s) with
  | Some _ => s
  | None =>
      let s := set_startTime (now (host s)) s in
      let s := configure s in
      if shouldAnimate k
      then let '(h, s) := requestAnimationFrame s in set_rafId (Some h) s
      else Legacy.drawFrame 0 s
  end.

Definition stop (s : State) : State :=
  match rafId (vars s) with
  | None => s
  | Some h => set_rafId None (cancelAnimationFrame h s)
  end.

Definition destroy (s : State) : State :=
  let s := stop s in
  let s := ro_disconnect s in
  let s := removeEventListener s in
  uniformBuffer_destroy s.

Definition call (m : Method) : State -> State :=
  match m with
  | Start => start
  | Stop => stop
  | Destroy => destroy
  end.

(** One event on the earlier engine. *)
Definition step (e : Event) (s : State) : option State :=
  match e with
  | Call m => Some (call m s)
  | Frame h =>
      if bool_decide (h ∈ pending (world s))
      then Some (Legacy.tick (dequeue h s))
      else None
  | VisibilityChange b =>
      let hs := host s in
      let s :=
        set_host
          {| clientWidth := clientWidth hs; clientHeight := clientHeight hs;
             devicePixelRatio := devicePixelRatio hs;
             hidden := b; now := now hs |} s in
      Some (if listening (world s) then onVisibility s else s)
  | Layout w h r =>
      let hs := host s in
      Some (set_host
              {| clientWidth := w; clientHeight := h;
                 devicePixelRatio := r;
                 hidden := hidden hs; now := now hs |} s)
  | Resize =>
      Some (if observing (world s) then configure s else s)
  | Clock t =>
      let hs := host s in
      if Qle_bool (now hs) t
      then Some (set_host
                   {| clientWidth := clientWidth hs;
                      clientHeight := clientHeight hs;
                      devicePixelRatio := devicePixelRatio hs;
                      hidden := hidden hs; now := t |} s)
      else None
  end.

Fixpoint run (es : list Event) (s : State) : option State :=
  match es with
  | [] => Some s
  | e :: es =>
      match step e s with
      | Some s' => run es s'
      | None => None
      end
  end.

End Procedural.

Definition createWebGPUProceduralBackground
    (plat : Platform) (h : Host) (opts : Options.Options) : Result :=
  if negb (gpu plat)
  then Throw "WebGPU not supported in this browser (navigator.gpu missing)." []
  else
    let powerPreference :=
      Js.nullish (Options.powerPreference opts) LowPower in
    let respectReducedMotion :=
      Js.nullish (Options.respectReducedMotion opts) true in
    let maxDpr := Js.nullish (Options.maxDpr opts) 3%Q in
    let prefersReducedMotion :=
      match matchMedia plat with
      | Some matches => matches
      | None => false
      end in
    let shouldAnimate :=
      negb respectReducedMotion || negb prefersReducedMotion in
    let done := [AddListener; RequestAdapter powerPreference] in
    if negb (requestAdapter plat powerPreference)
    then Throw "No WebGPU adapter available." done
    else
      let done := done ++ [RequestDevice; GetContext] in
      if negb (getContext plat)
      then Throw "Could not get WebGPU canvas context." done
      else
        let done := done ++ [CreateBuffer (4 * 4); Observe] in
        let k := {| maxDpr := maxDpr; shouldAnimate := shouldAnimate |} in
        let s :=
          {| host := h;
             vars :=
               {| mergedParams := ∅;
                  pausedByVisibility := hidden h;
                  uniformData := [];
                  width := 1; height := 1; dpr := 1;
                  rafId := None;
                  startTime := now h |};
             world :=
               {| pending := []; next_handle := 1;
                  observing := true; listening := true;
                  trace := done |} |} in
        Return k (configure k s)
          (list_to_map
             [("start", Start); ("stop", Stop); ("destroy", Destroy)]).

End Procedural.

(** *** The page scripts (main.ts) *)

(** How a page script ends: the awaited promise rejected, a member it calls
    is missing, or it ran to its end. *)
Inductive Outcome (K : Type) : Type :=
| Rejected (message : string) (done : list Effect)
| NotAFunction (member : string)
| Started (k : K) (s : State).

Arguments Rejected {K} message done.
Arguments NotAFunction {K} member.
Arguments Started {K} k s.

Section Main.
Context {F : Float32}.

(** [const bg = await createBackground(canvas, "perlinNoise1", {},
    { powerPreference: "low-power", respectReducedMotion: true });
    bg.start();] *)
Definition main (plat : Platform) (h : Host) : Outcome Config :=
  match createBackground plat h PerlinNoise1 ∅ main_options with
  | Throw message done => Rejected message done
  | Return cfg s bg =>
      match bg !! "start" with
      | Some m => Started cfg (call cfg m s)
      | None => NotAFunction "start"
      end
  end.

(** The first page script: [const bg = await
    createWebGPUProceduralBackground(canvas, { powerPreference: "low-power",
    respectReducedMotion: true }); bg.start();] *)
Definition main_procedural (plat : Platform) (h : Host)
    : Outcome Procedural.Consts :=
  match Procedural.createWebGPUProceduralBackground plat h main_options with
  | Procedural.Throw message done => Rejected message done
  | Procedural.Return k s bg =>
      match bg !! "start" with
      | Some m => Started k (Procedural.call k m s)
      | None => NotAFunction "start"
      end
  end.

End Main.

(** *** The parameter panel (pane.ts) *)

Module Pane.

(** [ParamMeta]: the per-key hints [buildPane] reads.  Its declaration is
    not among the sources; the fields are those pane.ts accesses. *)
Record ParamMeta := {
  hidden : option bool;
  label : option string;
  min : option Q;
  max : option Q;
  step : option Q
}.

(** A value of the options object handed to [addBinding]. *)
Inductive Hint : Type :=
| Text (s : string)
| Number (q : Q).

(** The panel: its title and the bindings added to it, in order. *)
Record Pane := {
  title : string;
  bindings : list (string * gmap string Hint)
}.

(** [pane.addBinding(params, key, opts)] *)
Definition addBinding (key : string) (opts : gmap string Hint) (p : Pane)
    : Pane :=
  {| title := title p; bindings := bindings p ++ [(key, opts)] |}.

(** The options object built for one key from its hints [m]. *)
Definition options_for (m : option ParamMeta) : gmap string Hint :=
  let opts := ∅ in
  let opts :=
    match m ≫= label with
    | Some l => <["label" := Text l]> opts
    | None => opts
    end in
  let opts :=
    match m ≫= min with
    | Some x => <["min" := Number x]> opts
    | None => opts
    end in
  let opts :=
    match m ≫= max with
    | Some x => <["max" := Number x]> opts
    | None => opts
    end in
  let opts :=
    match m ≫= step with
    | Some x => <["step" := Number x]> opts
    | None => opts
    end in
  opts.

(** The body of [for (const key of Object.keys(params))]. *)
Fixpoint bind_keys
    (meta : option (gmap string ParamMeta)) (keys : list string) (p : Pane)
    : Pane :=
  match keys with
  | [] => p
  | key :: keys =>
      let m := meta ≫= (fun mm => mm !! key) in
      match m ≫= hidden with
      | Some true => bind_keys meta keys p
      | _ => bind_keys meta keys (addBinding key (options_for m) p)
      end
  end.

(** [buildPane(params, meta, title)]; [params] is an object whose keys are
    enumerated in insertion order, the other two arguments may be
    [undefined]. *)
Definition buildPane
    (params : list (string * Q)) (meta : option (gmap string ParamMeta))
    (title : option string) : Pane :=
  let pane :=
    {| title := Js.nullish title "Parameters"; bindings := [] |} in
  bind_keys meta (params.*1) pane.

End Pane.

(** *** Views and invariants *)

(** An effect as the earlier engine would have made it: only the four
    standard uniforms are uploaded, to a buffer of four floats. *)
Definition std_effect (e : Effect) : Effect :=
  match e with
  | WriteBuffer d => WriteBuffer (take 4 d)
  | CreateBuffer _ => CreateBuffer 16
  | _ => e
  end.

(** A state of the descriptor-driven engine seen through the four standard
    uniforms. *)
Definition std_view (s : State) : State :=
  {| host := host s;
     vars :=
       {| mergedParams := ∅;
          pausedByVisibility := pausedByVisibility (vars s);
          uniformData := [];
          width := width (vars s); height := height (vars s);
          dpr := dpr (vars s);
          rafId := rafId (vars s);
          startTime := startTime (vars s) |};
     world :=
       {| pending := pending (world s);
          next_handle := next_handle (world s);
          observing := observing (world s);
          listening := listening (world s);
          trace := map std_effect (trace (world s)) |} |}.

(** The constants the earlier engine shares with [cfg]. *)
Definition std_consts (cfg : Config) : Procedural.Consts :=
  {| Procedural.maxDpr := maxDpr cfg;
     Procedural.shouldAnimate := shouldAnimate cfg |}.

(** A backing store is never sized below one pixel. *)
Definition sized (e : Effect) : Prop :=
  match e with
  | CanvasResize w h => (1 <= w)%Q /\ (1 <= h)%Q
  | _ => True
  end.

(** An upload fills a buffer of [n] floats exactly, and leaves the cells
    from [used] on at zero. *)
Definition fits (n used : nat) (e : Effect) : Prop :=
  match e with
  | WriteBuffer d =>
      length d = n /\ drop used d = replicate (n - used) (f32_num 0)
  | CreateBuffer bytes => bytes = n * 4
  | _ => True
  end.

(** The fourteen cells [perlinNoise1.writeUniforms] writes. *)
Definition perlinNoise1_cells {F : Float32}
    (time width height dpr : Q) (p : gmap string Q) : list f32 :=
  [ f32_num (fround time); f32_num (fround width);
    f32_num (fround height); f32_num (fround dpr);
    to_f32 (p !! "baseR"); to_f32 (p !! "baseG"); to_f32 (p !! "baseB");
    to_f32 (p !! "colAr"); to_f32 (p !! "colAg"); to_f32 (p !! "colAb");
    to_f32 (p !! "colBr"); to_f32 (p !! "colBg"); to_f32 (p !! "colBb");
    to_f32 (p !! "speed") ].

(** The uploads of a trace, in order. *)
Definition uploaded (t : list Effect) : list (list f32) :=
  omap (fun e => match e with WriteBuffer d => Some d | _ => None end) t.

(** Hints that hide the two padding fields and label [speed]. *)
Definition pad_hints : gmap string Pane.ParamMeta :=
  list_to_map
    [ ("_pad0",
       {| Pane.hidden := Some true; Pane.label := None; Pane.min := None;
          Pane.max := None; Pane.step := None |});
      ("_pad1",
       {| Pane.hidden := Some true; Pane.label := None; Pane.min := None;
          Pane.max := None; Pane.step := None |});
      ("speed",
       {| Pane.hidden := None; Pane.label := Some "Speed";
          Pane.min := Some 0%Q; Pane.max := Some 1%Q; Pane.step := None |}) ].

(** ** Surface configuration *)

Section ConfigureFacts.
Local Open Scope Q_scope.

Lemma Math_max_1_le (x : Q) : 1 <= Js.Math_max 1 x.
Proof. unfold Js.Math_max. apply Q.le_max_l. Qed.






(** The clamp of the pixel ratio: at least 1, and at most [maxDpr] as soon
    as [maxDpr] itself is at least 1. *)
Lemma clamp_bounds (m r : Q) :
  1 <= Js.Math_max 1 (Js.Math_min m r) /\
  (1 <= m -> Js.Math_max 1 (Js.Math_min m r) <= m).
Proof.
  split; [apply Math_max_1_le |].
  intros Hm. unfold Js.Math_max, Js.Math_min.
  apply Q.max_lub; [exact Hm | apply Q.le_min_l].
Qed.


End ConfigureFacts.

Lemma perlin_engine_created (animate : bool) (h : Host) (params : gmap string Q) :
  createBackground (F := exact_f32) (capable (negb animate)) h PerlinNoise1
    params no_options
  = Return (perlin_cfg animate) (perlin_engine animate h params)
      (list_to_map [("start", Start); ("stop", Stop); ("destroy", Destroy)]).
Proof. destruct animate; reflexivity. Qed.

Lemma configure_dpr_ge_1 (cfg : Config) (s : State) :
  (1 <= dpr (vars (configure cfg s)))%Q.
Proof. cbn. apply Math_max_1_le. Qed.






(** ** Traces *)

Lemma count_snoc (p : Effect -> bool) (t : list Effect) (e : Effect) :
  count p (t ++ [e]) = count p t + (if p e then 1 else 0).
Proof.
  unfold count. rewrite List.filter_app, length_app. cbn.
  destruct (p e); reflexivity.
Qed.

Lemma count_app (p : Effect -> bool) (t u : list Effect) :
  count p (t ++ u) = count p t + count p u.
Proof. unfold count. now rewrite List.filter_app, length_app. Qed.

Lemma count_request_frames (hs : list nat) :
  count is_request_frame (map RequestFrame hs) = length hs /\
  count is_submit (map RequestFrame hs) = 0 /\
  count is_write (map RequestFrame hs) = 0.
Proof.
  induction hs as [|h hs (IH1 & IH2 & IH3)]; [easy |].
  unfold count in *. cbn. rewrite IH1. auto.
Qed.

(** ** The frame queue *)

Lemma filter_out_singleton (h : nat) : filter (fun x => x <> h) [h] = [].
Proof. apply filter_singleton_False; [exact [] | naive_solver]. Qed.

Lemma created_queue_matches {F : Float32}
    plat h n params opts cfg s c :
  createBackground plat h n params opts = Return cfg s c ->
  queue_matches s /\ rafId (vars s) = None.
Proof.
  unfold createBackground. intros H.
  destruct (gpu plat); [|discriminate]. cbn in H.
  destruct (requestAdapter plat _); [|discriminate]. cbn in H.
  destruct (getContext plat); [|discriminate]. cbn in H.
  injection H as <- <- <-. split; reflexivity.
Qed.

Lemma start_queue_matches (cfg : Config) (s : State) :
  queue_matches s -> queue_matches (start cfg s).
Proof.
  unfold queue_matches, start. intros H.
  destruct (rafId (vars s)) as [h|] eqn:E; [now rewrite E |].
  destruct (shouldAnimate cfg); cbn; rewrite ?E, H; reflexivity.
Qed.

Lemma stop_queue_matches (s : State) :
  queue_matches s -> queue_matches (stop s) /\ rafId (vars (stop s)) = None.
Proof.
  unfold queue_matches, stop. intros H.
  destruct (rafId (vars s)) as [h|] eqn:E; [| now rewrite E].
  cbn. rewrite H. split; [apply filter_out_singleton | reflexivity].
Qed.

Lemma step_queue_matches (cfg : Config) (e : Event) (s s' : State) :
  queue_matches s -> step cfg e s = Some s' -> queue_matches s'.
Proof.
  intros H Hs. destruct e as [m|h|b|w h r| |t]; cbn in Hs.
  - injection Hs as <-. destruct m; cbn.
    + now apply start_queue_matches.
    + now apply stop_queue_matches.
    + unfold destroy. apply stop_queue_matches in H as [H _]. exact H.
  - case_bool_decide as Hin; [|discriminate]. injection Hs as <-.
    unfold queue_matches in *. rewrite H in Hin.
    destruct (rafId (vars s)) as [h'|]; [| now apply elem_of_nil in Hin].
    apply list_elem_of_singleton in Hin as ->.
    unfold tick. cbn.
    destruct (pausedByVisibility (vars s)); cbn;
      rewrite H, filter_out_singleton; reflexivity.
  - injection Hs as <-. cbn. destruct (listening (world s)); exact H.
  - injection Hs as <-. exact H.
  - injection Hs as <-. destruct (observing (world s)); exact H.
  - destruct (Qle_bool _ _); [|discriminate]. injection Hs as <-. exact H.
Qed.

(** In every state of an engine, the queue holds the callback [rafId] names
    and nothing else. *)
Lemma reachable_queue_matches {F : Float32} (cfg : Config) (s : State) :
  reachable cfg s -> queue_matches s.
Proof.
  induction 1 as [plat h n params opts s c Hc | s e s' _ IH Hs].
  - now apply created_queue_matches in Hc.
  - now apply (step_queue_matches cfg e s).
Qed.

(** Without animation no step ever sets [rafId]. *)
Lemma step_still (cfg : Config) (e : Event) (s s' : State) :
  shouldAnimate cfg = false -> queue_matches s ->
  rafId (vars s) = None -> step cfg e s = Some s' -> rafId (vars s') = None.
Proof.
  intros Ha Hq Hr Hs. destruct e as [m|h|b|w h r| |t]; cbn in Hs.
  - injection Hs as <-. destruct m; cbn.
    + unfold start. rewrite Hr, Ha. exact Hr.
    + unfold stop. now rewrite Hr.
    + unfold destroy, stop. now rewrite Hr.
  - unfold queue_matches in Hq. rewrite Hr in Hq. rewrite Hq in Hs.
    case_bool_decide as Hin; [now apply elem_of_nil in Hin | discriminate].
  - injection Hs as <-. cbn. destruct (listening (world s)); exact Hr.
  - injection Hs as <-. exact Hr.
  - injection Hs as <-. destruct (observing (world s)); exact Hr.
  - destruct (Qle_bool _ _); [|discriminate]. injection Hs as <-. exact Hr.
Qed.

Lemma reachable_still {F : Float32} (cfg : Config) (s : State) :
  shouldAnimate cfg = false -> reachable cfg s -> rafId (vars s) = None.
Proof.
  intros Ha. induction 1 as [plat h n params opts s c Hc | s e s' Hr IH Hs].
  - now apply created_queue_matches in Hc.
  - apply (step_still cfg e s); auto. now apply (reachable_queue_matches cfg).
Qed.

(** At most one frame loop is pending, in every state of every engine. *)
Lemma reachable_one_loop {F : Float32} (cfg : Config) (s : State) :
  reachable cfg s -> length (pending (world s)) <= 1.
Proof.
  intros H. apply reachable_queue_matches in H. unfold queue_matches in H.
  rewrite H. destruct (rafId (vars s)); cbn; lia.
Qed.

(** ** The frame loop while hidden *)

(** A tick of a paused engine requests the next frame and does nothing
    else; the tick of the earlier engine is the same function there. *)
Lemma tick_paused {F : Float32} (cfg : Config) (s : State) :
  pausedByVisibility (vars s) = true ->
  tick cfg s
    = set_rafId (Some (next_handle (world s))) (requestAnimationFrame s).2 /\
  Legacy.tick s = tick cfg s.
Proof. intros H. unfold tick, Legacy.tick. rewrite H. split; reflexivity. Qed.

Lemma next_frame_paused (cfg : Config) (s : State) :
  queue_matches s -> rafId (vars s) <> None ->
  pausedByVisibility (vars s) = true ->
  exists s',
    next_frame cfg s = Some s' /\
    queue_matches s' /\
    rafId (vars s') = Some (next_handle (world s)) /\
    pausedByVisibility (vars s') = true /\
    next_handle (world s') = S (next_handle (world s)) /\
    trace (world s') = trace (world s) ++ [RequestFrame (next_handle (world s))].
Proof.
  intros Hq Hr Hp. unfold queue_matches in Hq.
  destruct (rafId (vars s)) as [h|] eqn:E; [|congruence].
  unfold next_frame. rewrite Hq. cbn. rewrite Hq.
  rewrite bool_decide_eq_true_2 by apply list_elem_of_singleton, eq_refl.
  eexists. split; [reflexivity |].
  unfold tick, queue_matches. cbn. rewrite Hp. cbn.
  rewrite Hq, filter_out_singleton. repeat split; auto.
Qed.

Lemma frames_paused (cfg : Config) (n : nat) : forall s : State,
  queue_matches s -> rafId (vars s) <> None ->
  pausedByVisibility (vars s) = true ->
  exists s',
    frames cfg n s = Some s' /\
    queue_matches s' /\ rafId (vars s') <> None /\
    pausedByVisibility (vars s') = true /\
    trace (world s')
      = trace (world s) ++ map RequestFrame (seq (next_handle (world s)) n).
Proof.
  induction n as [|n IH]; intros s Hq Hr Hp.
  - exists s. cbn. rewrite app_nil_r. auto.
  - destruct (next_frame_paused cfg s Hq Hr Hp)
      as (s1 & Hs1 & Hq1 & Hr1 & Hp1 & Hn1 & Ht1).
    destruct (IH s1 Hq1) as (s' & Hs' & Hq' & Hr' & Hp' & Ht');
      [congruence | exact Hp1 |].
    exists s'. cbn [frames]. rewrite Hs1.
    repeat split; auto.
    rewrite Ht', Ht1, Hn1, <- app_assoc. reflexivity.
Qed.

(** C5.  In a running state of an engine that is paused by visibility, the
    next [n] ticks, for every [n], all run, each requests the next frame,
    and that is everything they do: no uniform upload and no submission is
    made, the engine stays running with one callback pending.  On such a
    state the tick of the earlier engine is the same function. *)
Theorem hidden_ticks_only_reschedule {F : Float32}
    (cfg : Config) (s : State) (n : nat) :
  reachable cfg s ->
  rafId (vars s) <> None ->
  pausedByVisibility (vars s) = true ->
  exists s',
    frames cfg n s = Some s' /\
    trace (world s')
      = trace (world s) ++ map RequestFrame (seq (next_handle (world s)) n) /\
    submissions s' = submissions s /\
    uploads s' = uploads s /\
    scheduled s' = scheduled s + n /\
    rafId (vars s') <> None /\
    length (pending (world s')) = 1 /\
    pausedByVisibility (vars s') = true /\
    Legacy.tick s' = tick cfg s'.
Proof.
  intros Hreach Hr Hp.
  destruct (frames_paused cfg n s) as (s' & Hs' & Hq' & Hr' & Hp' & Ht');
    [now apply (reachable_queue_matches cfg) | exact Hr | exact Hp |].
  exists s'. unfold submissions, uploads, scheduled.
  pose proof (tick_paused cfg s' Hp') as [_ Hlegacy].
  rewrite Ht', !count_app.
  destruct (count_request_frames (seq (next_handle (world s)) n))
    as (-> & -> & ->).
  rewrite length_seq. repeat split; auto.
  unfold queue_matches in Hq'. rewrite Hq'.
  destruct (rafId (vars s')); [reflexivity | congruence].
Qed.

Lemma hidden_desktop_engine_reachable :
  reachable (F := exact_f32) (perlin_cfg true) hidden_desktop_engine.
Proof.
  eapply reachable_step with (e := VisibilityChange true);
    [eapply reachable_step with (e := Call Start) |].
  - eapply reachable_init. apply (perlin_engine_created true desktop ∅).
  - reflexivity.
  - vm_compute. reflexivity.
Qed.

Lemma hidden_ticks_only_reschedule_witness :
  exists s',
    frames (perlin_cfg true) 3 hidden_desktop_engine = Some s' /\
    trace (world s')
      = trace (world hidden_desktop_engine)
          ++ [RequestFrame 2; RequestFrame 3; RequestFrame 4] /\
    submissions s' = 0.
Proof.
  destruct (hidden_ticks_only_reschedule (F := exact_f32) (perlin_cfg true)
              hidden_desktop_engine 3)
    as (s' & Hs & Ht & Hsub & _).
  - exact hidden_desktop_engine_reachable.
  - discriminate.
  - reflexivity.
  - exists s'. split; [exact Hs |]. split; [exact Ht | exact Hsub].
Defined.

(** ** start, stop and destroy *)

Lemma start_running (cfg : Config) (s : State) :
  rafId (vars s) <> None -> start cfg s = s.
Proof. unfold start. destruct (rafId (vars s)); congruence. Qed.

Lemma start_animate (cfg : Config) (s : State) :
  shouldAnimate cfg = true -> rafId (vars (start cfg s)) <> None.
Proof.
  intros Ha. unfold start.
  destruct (rafId (vars s)) as [h|] eqn:E; [now rewrite E |].
  rewrite Ha. discriminate.
Qed.

(** What [start] does without animation, once [rafId] is null. *)
Lemma start_still (cfg : Config) (s : State) :
  shouldAnimate cfg = false -> rafId (vars s) = None ->
  start cfg s
    = drawFrame cfg 0 (configure cfg (set_startTime (now (host s)) s)).
Proof. intros Ha Hr. unfold start. now rewrite Hr, Ha. Qed.

(** C6, as amended.  Whenever a frame callback is scheduled ([rafId] is not
    null, the engine is Running), [start] changes nothing; with animation
    enabled [start] leaves the engine Running, so a second [start] in a row
    changes nothing; and in either mode at most one frame callback is
    pending, also after two calls of [start]. *)
Theorem start_idempotent_when_animating {F : Float32}
    (cfg : Config) (s : State) :
  (rafId (vars s) <> None -> start cfg s = s) /\
  (shouldAnimate cfg = true ->
     rafId (vars (start cfg s)) <> None /\
     start cfg (start cfg s) = start cfg s) /\
  (reachable cfg s ->
     length (pending (world s)) <= 1 /\
     length (pending (world (start cfg s))) <= 1 /\
     length (pending (world (start cfg (start cfg s)))) <= 1).
Proof.
  split; [apply start_running |]. split.
  - intros Ha. split; [now apply start_animate |].
    now apply start_running, start_animate.
  - intros Hr.
    assert (H1 : reachable cfg (start cfg s))
      by (eapply reachable_step with (e := Call Start); [exact Hr | reflexivity]).
    assert (H2 : reachable cfg (start cfg (start cfg s)))
      by (eapply reachable_step with (e := Call Start); [exact H1 | reflexivity]).
    repeat split; now apply (reachable_one_loop cfg).
Qed.

Lemma perlin_engine_reachable (animate : bool) (h : Host) :
  reachable (F := exact_f32) (perlin_cfg animate) (perlin_engine animate h ∅).
Proof. eapply reachable_init. apply (perlin_engine_created animate h ∅). Qed.

Lemma start_idempotent_when_animating_witness :
  let cfg := perlin_cfg true in
  let s := perlin_engine true desktop ∅ in
  start cfg (start cfg s) = start cfg s /\
  scheduled (start cfg (start cfg s)) = 1 /\
  length (pending (world (start cfg (start cfg s)))) <= 1 /\
  start cfg hidden_desktop_engine = hidden_desktop_engine.
Proof.
  intros cfg s.
  destruct (start_idempotent_when_animating (F := exact_f32) cfg s)
    as (_ & Hanim & Hloop).
  destruct (start_idempotent_when_animating (F := exact_f32) cfg
              hidden_desktop_engine) as (Hrunning & _).
  destruct (Hanim eq_refl) as (_ & Htwice).
  destruct (Hloop (perlin_engine_reachable true desktop)) as (_ & _ & Hone).
  split; [exact Htwice |]. split; [rewrite Htwice; reflexivity |].
  split; [exact Hone |]. apply Hrunning. discriminate.
Defined.

(** C6 as stated fails for an engine created under a reduced-motion
    preference: its second [start] in a row configures and renders again. *)
Lemma start_twice_reduced_motion_differs :
  let cfg := perlin_cfg false in
  let s := perlin_engine false desktop ∅ in
  createBackground (F := exact_f32) (capable true) desktop PerlinNoise1 ∅
    no_options
  = Return cfg s
      (list_to_map [("start", Start); ("stop", Stop); ("destroy", Destroy)]) /\
  rafId (vars (start cfg s)) = None /\
  submissions (start cfg s) = 1 /\
  submissions (start cfg (start cfg s)) = 2 /\
  start cfg (start cfg s) <> start cfg s.
Proof.
  cbv zeta. split; [reflexivity |]. split; [reflexivity |].
  split; [reflexivity |]. split; [reflexivity |].
  intros H. apply (f_equal submissions) in H. vm_compute in H. discriminate.
Qed.

(** ** Reduced motion *)

Lemma step_never_schedules (cfg : Config) (e : Event) (s s' : State) :
  shouldAnimate cfg = false -> queue_matches s -> rafId (vars s) = None ->
  step cfg e s = Some s' -> scheduled s' = scheduled s.
Proof.
  intros Ha Hq Hr Hs. unfold scheduled.
  destruct e as [m|h|b|w h r| |t]; cbn in Hs.
  - injection Hs as <-. destruct m; cbn.
    + rewrite (start_still cfg s Ha Hr). cbn.
      rewrite !count_snoc. cbn. lia.
    + unfold stop. now rewrite Hr.
    + unfold destroy, stop. rewrite Hr. cbn. rewrite !count_snoc. cbn. lia.
  - unfold queue_matches in Hq. rewrite Hr in Hq. rewrite Hq in Hs.
    case_bool_decide as Hin; [now apply elem_of_nil in Hin | discriminate].
  - injection Hs as <-. cbn. destruct (listening (world s)); reflexivity.
  - injection Hs as <-. reflexivity.
  - injection Hs as <-. destruct (observing (world s)); [|reflexivity].
    cbn. rewrite !count_snoc. cbn. lia.
  - destruct (Qle_bool _ _); [|discriminate]. injection Hs as <-. reflexivity.
Qed.

Lemma created_never_scheduled {F : Float32}
    plat h n params opts cfg s c :
  createBackground plat h n params opts = Return cfg s c -> scheduled s = 0.
Proof.
  unfold createBackground. intros H.
  destruct (gpu plat); [|discriminate]. cbn in H.
  destruct (requestAdapter plat _); [|discriminate]. cbn in H.
  destruct (getContext plat); [|discriminate]. cbn in H.
  injection H as <- <- <-. reflexivity.
Qed.

Lemma reachable_never_scheduled {F : Float32} (cfg : Config) (s : State) :
  shouldAnimate cfg = false -> reachable cfg s -> scheduled s = 0.
Proof.
  intros Ha. induction 1 as [plat h n params opts s c Hc | s e s' Hr IH Hs].
  - now apply created_never_scheduled in Hc.
  - rewrite <- IH. apply (step_never_schedules cfg e s); auto.
    + now apply (reachable_queue_matches cfg).
    + now apply (reachable_still cfg).
Qed.

(** C9.  In every state of an engine created with animation disabled,
    [rafId] is null, no frame callback is pending and none has ever been
    requested; [stop] changes nothing; and [start] passes its guard: it
    resets the clock, configures, renders one frame at time 0 and requests
    no callback. *)
Theorem reduced_motion_never_schedules {F : Float32}
    (cfg : Config) (s : State) :
  shouldAnimate cfg = false ->
  reachable cfg s ->
  rafId (vars s) = None /\
  pending (world s) = [] /\
  scheduled s = 0 /\
  stop s = s /\
  let s0 := configure cfg (set_startTime (now (host s)) s) in
  let v := vars s0 in
  let data :=
    Renderer.writeUniforms (descriptor cfg) (uniformData v) 0
      (width v) (height v) (dpr v) (mergedParams v) in
  start cfg s = drawFrame cfg 0 s0 /\
  trace (world (start cfg s))
    = trace (world s)
        ++ [CanvasResize (width v) (height v); ContextConfigure;
            WriteBuffer data; Submit] /\
  submissions (start cfg s) = submissions s + 1 /\
  scheduled (start cfg s) = 0 /\
  rafId (vars (start cfg s)) = None /\
  pending (world (start cfg s)) = [].
Proof.
  intros Ha Hreach.
  pose proof (reachable_still cfg s Ha Hreach) as Hr.
  pose proof (reachable_queue_matches cfg s Hreach) as Hq.
  pose proof (reachable_never_scheduled cfg s Ha Hreach) as Hn.
  unfold queue_matches in Hq. rewrite Hr in Hq.
  split; [exact Hr |]. split; [exact Hq |]. split; [exact Hn |].
  split; [unfold stop; now rewrite Hr |].
  intros s0 v data. rewrite (start_still cfg s Ha Hr).
  split; [reflexivity |].
  split; [cbn; rewrite <- !app_assoc; reflexivity |].
  split; [unfold submissions; cbn; rewrite !count_snoc; cbn; lia |].
  split; [unfold scheduled in *; cbn; rewrite !count_snoc, Hn; reflexivity |].
  split; [exact Hr | exact Hq].
Qed.

Lemma reduced_motion_never_schedules_witness :
  let s := start (perlin_cfg false) (perlin_engine false desktop ∅) in
  rafId (vars s) = None /\ stop s = s /\
  submissions (start (perlin_cfg false) s) = 2 /\
  scheduled (start (perlin_cfg false) s) = 0.
Proof.
  intros s.
  assert (Hs : reachable (F := exact_f32) (perlin_cfg false) s)
    by (eapply reachable_step with (e := Call Start);
        [apply perlin_engine_reachable | reflexivity]).
  destruct (reduced_motion_never_schedules (F := exact_f32)
              (perlin_cfg false) s eq_refl Hs)
    as (Hr & _ & _ & Hstop & _ & _ & Hsub & Hsch & _).
  split; [exact Hr |]. split; [exact Hstop |].
  split; [rewrite Hsub; reflexivity | exact Hsch].
Defined.

(** ** destroy *)

Lemma stop_releases (s : State) : releases (stop s) = releases s.
Proof.
  unfold stop, releases. destruct (rafId (vars s)); [|reflexivity].
  cbn. rewrite count_snoc. cbn. lia.
Qed.

Lemma destroy_releases (s : State) : releases (destroy s) = releases s + 1.
Proof.
  unfold destroy, releases. cbn. rewrite !count_snoc. cbn.
  fold (releases (stop s)). rewrite stop_releases. unfold releases. lia.
Qed.

(** C3, as amended.  [destroy] has no guard: every call performs [stop],
    disconnects the layout observer, removes the visibility listener and
    calls [destroy] on the uniform buffer.  After one call no frame callback
    is left, neither observer reacts any more, and the buffer has been
    released once more than before; [n] calls release it [n] times. *)
Theorem destroy_releases_on_every_call (cfg : Config) (s : State) (n : nat) :
  let s1 := destroy s in
  s1 = uniformBuffer_destroy (removeEventListener (ro_disconnect (stop s))) /\
  trace (world s1)
    = trace (world (stop s)) ++ [Disconnect; RemoveListener; BufferDestroy] /\
  rafId (vars s1) = None /\
  (queue_matches s -> pending (world s1) = []) /\
  observing (world s1) = false /\
  listening (world s1) = false /\
  step cfg Resize s1 = Some s1 /\
  pausedByVisibility
    <$> (vars <$> step cfg (VisibilityChange (negb (hidden (host s1)))) s1)
    = Some (pausedByVisibility (vars s1)) /\
  releases s1 = releases s + 1 /\
  releases (Nat.iter n destroy s) = releases s + n.
Proof.
  intros s1. split; [reflexivity |].
  split; [cbn; rewrite <- !app_assoc; reflexivity |].
  split; [unfold s1, destroy, stop; destruct (rafId (vars s)) eqn:E;
          [reflexivity | exact E] |].
  split; [intros Hq; apply stop_queue_matches in Hq as [Hq Hr];
          unfold queue_matches in Hq; rewrite Hr in Hq; exact Hq |].
  split; [reflexivity |]. split; [reflexivity |].
  split; [reflexivity |]. split; [reflexivity |].
  split; [apply destroy_releases |].
  induction n as [|n IH]; [cbn; lia |].
  change (Nat.iter (S n) destroy s) with (destroy (Nat.iter n destroy s)).
  rewrite destroy_releases, IH. lia.
Qed.

(** C3 as stated fails: a second [destroy] releases the uniform buffer a
    second time. *)
Lemma destroy_twice_releases_twice :
  let s := start (perlin_cfg true) (perlin_engine true desktop ∅) in
  releases s = 0 /\
  releases (destroy s) = 1 /\
  releases (destroy (destroy s)) = 2 /\
  trace (world (destroy (destroy s)))
    = trace (world (destroy s)) ++ [Disconnect; RemoveListener; BufferDestroy].
Proof. cbv zeta. repeat split; reflexivity. Qed.

Lemma destroy_releases_on_every_call_witness :
  let s := start (perlin_cfg true) (perlin_engine true desktop ∅) in
  rafId (vars s) = Some 1 /\
  pending (world (destroy s)) = [] /\
  releases (Nat.iter 3 destroy s) = 3.
Proof.
  intros s.
  destruct (destroy_releases_on_every_call (perlin_cfg true) s 3)
    as (_ & _ & _ & Hq & _ & _ & _ & _ & _ & Hn).
  split; [reflexivity |]. split; [apply Hq; reflexivity | exact Hn].
Defined.

(** ** Initialisation *)

(** C4.  [createBackground] rejects exactly when the host has no
    [navigator.gpu], when [requestAdapter] yields no adapter, or when the
    canvas yields no WebGPU context, each with its own error and in that
    order of precedence; the adapter is requested at most once, so nothing
    is retried.  (Device and resource creation have no failure path in the
    source and are taken to succeed.) *)
Theorem createBackground_fails_on_capability_gaps {F : Float32}
    (plat : Platform) (h : Host) (n : RendererName)
    (params : gmap string Q) (opts : Options.Options) :
  let pp := Js.nullish (Options.powerPreference opts) LowPower in
  let r := createBackground plat h n params opts in
  (gpu plat = false ->
     r = Throw "WebGPU not supported in this browser (navigator.gpu missing)."
           []) /\
  (gpu plat = true -> requestAdapter plat pp = false ->
     r = Throw "No WebGPU adapter available."
           [AddListener; RequestAdapter pp]) /\
  (gpu plat = true -> requestAdapter plat pp = true ->
   getContext plat = false ->
     r = Throw "Could not get WebGPU canvas context."
           [AddListener; RequestAdapter pp; RequestDevice; GetContext]) /\
  ((exists message done, r = Throw message done) <->
     gpu plat = false \/ requestAdapter plat pp = false \/
     getContext plat = false) /\
  (forall message done,
     r = Throw message done -> count is_request_adapter done <= 1) /\
  (forall cfg s c,
     r = Return cfg s c -> count is_request_adapter (trace (world s)) = 1).
Proof.
  intros pp r. unfold r, createBackground. fold pp.
  destruct (gpu plat) eqn:Eg; cbn [negb];
    [destruct (requestAdapter plat pp) eqn:Ea; cbn [negb];
      [destruct (getContext plat) eqn:Ec; cbn [negb] |] |].
  - repeat split; try discriminate.
    + intros (m & d & H). discriminate.
    + intros [H | [H | H]]; discriminate.
    + intros cfg s c H. injection H as <- <- <-. reflexivity.
  - repeat split; try discriminate; eauto.
    intros m d H. injection H as <- <-. vm_compute. lia.
  - repeat split; try discriminate; eauto.
    intros m d H. injection H as <- <-. vm_compute. lia.
  - repeat split; try discriminate; eauto.
    intros m d H. injection H as <- <-. vm_compute. lia.
Qed.

Lemma createBackground_fails_on_capability_gaps_witness :
  createBackground (F := exact_f32)
    {| gpu := false; requestAdapter := fun _ => true; getContext := true;
       matchMedia := None |} desktop PerlinNoise1 ∅ main_options
  = Throw "WebGPU not supported in this browser (navigator.gpu missing)." []
  /\
  createBackground (F := exact_f32)
    {| gpu := true; requestAdapter := fun _ => false; getContext := true;
       matchMedia := None |} desktop PerlinNoise1 ∅ main_options
  = Throw "No WebGPU adapter available." [AddListener; RequestAdapter LowPower]
  /\
  createBackground (F := exact_f32)
    {| gpu := true; requestAdapter := fun _ => true; getContext := false;
       matchMedia := None |} desktop PerlinNoise1 ∅ main_options
  = Throw "Could not get WebGPU canvas context."
      [AddListener; RequestAdapter LowPower; RequestDevice; GetContext].
Proof.
  split; [| split].
  - apply (createBackground_fails_on_capability_gaps (F := exact_f32)
             {| gpu := false; requestAdapter := fun _ => true;
                getContext := true; matchMedia := None |}
             desktop PerlinNoise1 ∅ main_options).
    reflexivity.
  - apply (createBackground_fails_on_capability_gaps (F := exact_f32)
             {| gpu := true; requestAdapter := fun _ => false;
                getContext := true; matchMedia := None |}
             desktop PerlinNoise1 ∅ main_options); reflexivity.
  - apply (createBackground_fails_on_capability_gaps (F := exact_f32)
             {| gpu := true; requestAdapter := fun _ => true;
                getContext := false; matchMedia := None |}
             desktop PerlinNoise1 ∅ main_options); reflexivity.
Defined.

(** ** The controller *)

(** The object [createBackground] resolves to has the members [start],
    [stop] and [destroy], and no other. *)
Lemma controller_members {F : Float32}
    plat h n params opts cfg s (c : gmap string Method) :
  createBackground plat h n params opts = Return cfg s c ->
  c !! "start" = Some Start /\ c !! "stop" = Some Stop /\
  c !! "destroy" = Some Destroy /\
  forall k : string, k <> "start" -> k <> "stop" -> k <> "destroy" ->
                     c !! k = None.
Proof.
  unfold createBackground. intros H.
  destruct (gpu plat); [|discriminate]. cbn in H.
  destruct (requestAdapter plat _); [|discriminate]. cbn in H.
  destruct (getContext plat); [|discriminate]. cbn in H.
  injection H as <- <- <-.
  split; [reflexivity |]. split; [reflexivity |]. split; [reflexivity |].
  intros k H1 H2 H3. cbn.
  rewrite !lookup_insert_ne by congruence. apply lookup_empty.
Qed.

(** Each frame is written from the parameter object as it is when the frame
    is drawn. *)
Lemma drawFrame_reads_mergedParams
    (cfg : Config) (t : Q) (p : gmap string Q) (s : State) :
  let v := vars s in
  let data :=
    Renderer.writeUniforms (descriptor cfg) (uniformData v) t
      (width v) (height v) (dpr v) p in
  trace (world (drawFrame cfg t (set_mergedParams p s)))
    = trace (world s) ++ [WriteBuffer data; Submit].
Proof. cbn. rewrite <- app_assoc. reflexivity. Qed.

(** C1, on the call main.ts makes.  The controller that
    [createBackground(canvas, "perlinNoise1", {}, ...)] resolves to has
    [start], [stop] and [destroy], and reading its [params] gives
    [undefined]: the parameter object of the closure is not exposed. *)
Theorem main_controller_lacks_params :
  exists cfg s c,
    createBackground (F := exact_f32) (capable false) desktop PerlinNoise1 ∅
      main_options = Return cfg s c /\
    c !! "start" = Some Start /\ c !! "stop" = Some Stop /\
    c !! "destroy" = Some Destroy /\
    c !! "params" = None /\ c !! "liveParams" = None /\
    c !! "mergedParams" = None.
Proof.
  do 3 eexists. split; [reflexivity |]. repeat split; reflexivity.
Qed.

(** ** The uniform layout of perlinNoise1 *)

(** What [writeUniforms] leaves in a zero-initialised buffer of 16 floats. *)
Lemma perlinNoise1_writeUniforms_fresh {F : Float32}
    (time width height dpr : Q) (p : gmap string Q) :
  perlinNoise1_writeUniforms (Float32Array_new 16) time width height dpr p
  = [ f32_num (fround time); f32_num (fround width);
      f32_num (fround height); f32_num (fround dpr);
      to_f32 (p !! "baseR"); to_f32 (p !! "baseG"); to_f32 (p !! "baseB");
      to_f32 (p !! "colAr"); to_f32 (p !! "colAg"); to_f32 (p !! "colAb");
      to_f32 (p !! "colBr"); to_f32 (p !! "colBg"); to_f32 (p !! "colBb");
      to_f32 (p !! "speed");
      f32_num 0; f32_num 0 ].
Proof. reflexivity. Qed.

(** [writeUniforms] never touches a cell from index 14 on, whatever the
    buffer held. *)
Lemma perlinNoise1_writeUniforms_padding {F : Float32}
    (buf : list f32) (time width height dpr : Q) (p : gmap string Q)
    (i : nat) :
  14 <= i ->
  perlinNoise1_writeUniforms buf time width height dpr p !! i = buf !! i.
Proof.
  intros Hi. unfold perlinNoise1_writeUniforms, store.
  rewrite !list_lookup_insert_ne by lia. reflexivity.
Qed.

(** C7.  For [perlinNoise1] ([uniformFloats] = 16), [writeUniforms] on a
    zero-initialised buffer at time 1.0, width 800, height 600 and pixel
    ratio 2 leaves 1, 800, 600, 2 in cells 0 to 3, the ten named parameters
    of the record, in declared order and as stored by a [Float32Array], in
    cells 4 to 13, and zero in cells 14 and 15: it writes no cell from 14
    on, whatever the buffer held.  Binary32 holds every whole number up to
    2^24 exactly. *)
Theorem perlinNoise1_layout {F : Float32} (p : gmap string Q) :
  (forall z : Z, (Z.abs z <= 2 ^ 24)%Z -> fround (inject_Z z) = inject_Z z) ->
  let buf :=
    Renderer.writeUniforms perlinNoise1
      (Float32Array_new (Renderer.uniformFloats perlinNoise1))
      1 800 600 2 p in
  Renderer.uniformFloats perlinNoise1 = 16 /\
  length perlinNoise1_defaults = 10 + 2 /\
  length buf = 16 /\
  buf !! 0 = Some (f32_num 1) /\
  buf !! 1 = Some (f32_num 800) /\
  buf !! 2 = Some (f32_num 600) /\
  buf !! 3 = Some (f32_num 2) /\
  (forall (i : nat) (name : string),
     i < 10 -> perlinNoise1_defaults.*1 !! i = Some name ->
     buf !! (4 + i) = Some (to_f32 (p !! name))) /\
  (forall (i : nat) (name : string) (v : Q),
     i < 10 -> perlinNoise1_defaults.*1 !! i = Some name ->
     p !! name = Some v ->
     buf !! (4 + i) = Some (f32_num (fround v))) /\
  buf !! 14 = Some (f32_num 0) /\
  buf !! 15 = Some (f32_num 0) /\
  (forall (buf0 : list f32) (i : nat),
     14 <= i ->
     Renderer.writeUniforms perlinNoise1 buf0 1 800 600 2 p !! i
     = buf0 !! i).
Proof.
  intros Hexact buf.
  assert (Hbuf : buf = perlinNoise1_writeUniforms (Float32Array_new 16)
                         1 800 600 2 p) by reflexivity.
  rewrite perlinNoise1_writeUniforms_fresh in Hbuf.
  assert (H1 : fround 1 = 1%Q) by (apply (Hexact 1%Z); vm_compute; discriminate).
  assert (H2 : fround 800 = 800%Q)
    by (apply (Hexact 800%Z); vm_compute; discriminate).
  assert (H3 : fround 600 = 600%Q)
    by (apply (Hexact 600%Z); vm_compute; discriminate).
  assert (H4 : fround 2 = 2%Q) by (apply (Hexact 2%Z); vm_compute; discriminate).
  rewrite H1, H2, H3, H4 in Hbuf.
  assert (Hnamed : forall (i : nat) (name : string),
            i < 10 -> perlinNoise1_defaults.*1 !! i = Some name ->
            buf !! (4 + i) = Some (to_f32 (p !! name))).
  { intros i name Hi Hname. rewrite Hbuf.
    do 10 (destruct i as [|i];
           [cbn in Hname; injection Hname as <-; reflexivity |]).
    lia. }
  split; [reflexivity |]. split; [reflexivity |].
  split; [rewrite Hbuf; reflexivity |].
  do 4 (split; [rewrite Hbuf; reflexivity |]).
  split; [exact Hnamed |].
  split; [intros i name v Hi Hname Hv; rewrite (Hnamed i name Hi Hname), Hv;
          reflexivity |].
  do 2 (split; [rewrite Hbuf; reflexivity |]).
  intros buf0 i Hi. now apply perlinNoise1_writeUniforms_padding.
Qed.

Lemma perlinNoise1_layout_witness :
  Renderer.writeUniforms (perlinNoise1 (F := exact_f32))
    (Float32Array_new 16) 1 800 600 2
    (Renderer.defaultParams (perlinNoise1 (F := exact_f32))) !! 13
  = Some (f32_num 0.15).
Proof.
  destruct (perlinNoise1_layout (F := exact_f32)
              (Renderer.defaultParams (perlinNoise1 (F := exact_f32))))
    as (_ & _ & _ & _ & _ & _ & _ & _ & Hv & _).
  - intros z _. reflexivity.
  - apply (Hv 9 "speed" 0.15%Q); [lia | reflexivity | reflexivity].
Defined.

(** ** Merging the overrides *)

Lemma lookup_spread (a b : gmap string Q) (k : string) :
  Js.spread a b !! k
  = match b !! k with
    | Some v => Some v
    | None => a !! k
    end.
Proof.
  unfold Js.spread. destruct (b !! k) as [v|] eqn:E.
  - now apply lookup_union_Some_l.
  - now apply lookup_union_r.
Qed.

Lemma created_mergedParams {F : Float32}
    plat h n params opts cfg s c :
  createBackground plat h n params opts = Return cfg s c ->
  descriptor cfg = renderers n /\
  mergedParams (vars s)
  = Js.spread (Renderer.defaultParams (renderers n)) params.
Proof.
  unfold createBackground. intros H.
  destruct (gpu plat); [|discriminate]. cbn in H.
  destruct (requestAdapter plat _); [|discriminate]. cbn in H.
  destruct (getContext plat); [|discriminate]. cbn in H.
  injection H as <- <- <-. split; reflexivity.
Qed.

(** C8.  For every descriptor and every partial override mapping, the
    merge of the overrides over the defaults has, at each key of the
    overrides, the override, and at every other key, what the defaults have
    there; and the parameter mapping of a created engine is that merge for
    the descriptor of its renderer.  So creating [perlinNoise1] with
    [{speed: 0.3}] gives a [speed] of 0.3 and leaves every other key at its
    default. *)
Theorem mergedParams_round_trip {F : Float32}
    (d : Renderer.RendererDescriptor) (overrides : gmap string Q) :
  (forall (k : string) (v : Q),
     overrides !! k = Some v ->
     Js.spread (Renderer.defaultParams d) overrides !! k = Some v) /\
  (forall k : string,
     overrides !! k = None ->
     Js.spread (Renderer.defaultParams d) overrides !! k
     = Renderer.defaultParams d !! k) /\
  (forall plat h n opts cfg s c,
     createBackground plat h n overrides opts = Return cfg s c ->
     mergedParams (vars s)
     = Js.spread (Renderer.defaultParams (descriptor cfg)) overrides) /\
  (forall plat h opts cfg s c,
     createBackground plat h PerlinNoise1 {[ "speed" := 0.3%Q ]} opts
     = Return cfg s c ->
     mergedParams (vars s) !! "speed" = Some 0.3%Q /\
     forall k : string,
       k <> "speed" ->
       mergedParams (vars s) !! k
       = Renderer.defaultParams (renderers PerlinNoise1) !! k).
Proof.
  split; [| split; [| split]].
  - intros k v Hk. now rewrite lookup_spread, Hk.
  - intros k Hk. now rewrite lookup_spread, Hk.
  - intros plat h n opts cfg s c H.
    apply created_mergedParams in H as [-> ->]. reflexivity.
  - intros plat h opts cfg s c H.
    apply created_mergedParams in H as [_ ->]. split.
    + rewrite lookup_spread, lookup_singleton_eq. reflexivity.
    + intros k Hk. rewrite lookup_spread, lookup_singleton_ne by congruence.
      reflexivity.
Qed.

Lemma mergedParams_round_trip_witness :
  let s := perlin_engine true desktop {[ "speed" := 0.3%Q ]} in
  mergedParams (vars s) !! "speed" = Some 0.3%Q /\
  mergedParams (vars s) !! "baseR" = Some 0.06%Q /\
  mergedParams (vars s) !! "colAb" = Some 0.85%Q.
Proof.
  intros s.
  destruct (mergedParams_round_trip (F := exact_f32)
              (perlinNoise1 (F := exact_f32)) {[ "speed" := 0.3%Q ]})
    as (_ & _ & _ & Hspeed).
  destruct (Hspeed (capable false) desktop no_options (perlin_cfg true) s
              (list_to_map
                 [("start", Start); ("stop", Stop); ("destroy", Destroy)]))
    as (H1 & H2).
  - apply (perlin_engine_created true desktop).
  - split; [exact H1 |].
    split; (rewrite H2; [reflexivity | discriminate]).
Defined.

(** ** Further properties of the engine *)

(** *** stop *)

Lemma stop_twice (s : State) : stop (stop s) = stop s.
Proof. unfold stop. destruct (rafId (vars s)) eqn:E; [reflexivity | now rewrite E]. Qed.

Lemma count_trace_stop (p : Effect -> bool) (s : State) :
  (forall h, p (CancelFrame h) = false) ->
  count p (trace (world (stop s))) = count p (trace (world s)).
Proof.
  intros Hp. unfold stop. destruct (rafId (vars s)) as [h|]; [|reflexivity].
  cbn. rewrite count_snoc, Hp. lia.
Qed.

(** X1.  [stop] on any state of an engine cancels the one pending callback
    and nothing else happens: afterwards no frame callback can run, nothing
    was rendered or released, both observers are as they were, and a second
    [stop] or a following [destroy] behaves as if [stop] had been called
    once. *)
Theorem stop_halts_the_loop {F : Float32} (cfg : Config) (s : State) :
  reachable cfg s ->
  rafId (vars (stop s)) = None /\
  pending (world (stop s)) = [] /\
  (forall h : nat, step cfg (Frame h) (stop s) = None) /\
  trace (world (stop s))
    = trace (world s)
        ++ match rafId (vars s) with
           | Some h => [CancelFrame h]
           | None => []
           end /\
  submissions (stop s) = submissions s /\
  releases (stop s) = releases s /\
  observing (world (stop s)) = observing (world s) /\
  listening (world (stop s)) = listening (world s) /\
  stop (stop s) = stop s /\
  destroy (stop s) = destroy s.
Proof.
  intros Hreach.
  pose proof (reachable_queue_matches cfg s Hreach) as Hq.
  destruct (stop_queue_matches s Hq) as [Hq' Hr'].
  unfold queue_matches in Hq'. rewrite Hr' in Hq'.
  split; [exact Hr' |]. split; [exact Hq' |].
  split; [intros h; cbn; rewrite Hq'; reflexivity |].
  split; [unfold stop; destruct (rafId (vars s));
          [reflexivity | now rewrite app_nil_r] |].
  split; [now apply count_trace_stop |].
  split; [now apply count_trace_stop |].
  split; [unfold stop; destruct (rafId (vars s)); reflexivity |].
  split; [unfold stop; destruct (rafId (vars s)); reflexivity |].
  split; [apply stop_twice |].
  unfold destroy. now rewrite stop_twice.
Qed.

Lemma stop_halts_the_loop_witness :
  let s := start (perlin_cfg true) (perlin_engine true desktop ∅) in
  pending (world s) = [1] /\
  pending (world (stop s)) = [] /\
  step (perlin_cfg true) (Frame 1) (stop s) = None.
Proof.
  intros s.
  assert (Hs : reachable (F := exact_f32) (perlin_cfg true) s)
    by (eapply reachable_step with (e := Call Start);
        [apply perlin_engine_reachable | reflexivity]).
  destruct (stop_halts_the_loop (F := exact_f32) (perlin_cfg true) s Hs)
    as (_ & Hp & Hf & _).
  split; [reflexivity |]. split; [exact Hp | apply Hf].
Defined.

(** *** The clock *)

(** X2.  Elapsed time is measured from the most recent [start]: when an
    idle, visible engine with animation enabled is started at time [now]
    and its first frame runs at time [t], that frame is written for
    [(t - now) / 1000] seconds, whatever [startTime] held before, and from
    the geometry [start] has just configured. *)
Theorem first_frame_is_timed_from_start (cfg : Config) (s : State) (t : Q) :
  shouldAnimate cfg = true ->
  rafId (vars s) = None ->
  pending (world s) = [] ->
  pausedByVisibility (vars s) = false ->
  (now (host s) <= t)%Q ->
  let s1 := start cfg s in
  let data :=
    Renderer.writeUniforms (descriptor cfg) (uniformData (vars s))
      ((t - now (host s)) / 1000)
      (width (vars s1)) (height (vars s1)) (dpr (vars s1))
      (mergedParams (vars s)) in
  startTime (vars s1) = now (host s) /\
  exists s2 s3,
    step cfg (Clock t) s1 = Some s2 /\
    next_frame cfg s2 = Some s3 /\
    trace (world s3)
      = trace (world s1)
          ++ [WriteBuffer data; Submit;
              RequestFrame (S (next_handle (world s)))] /\
    uniformData (vars s3) = data /\
    rafId (vars s3) = Some (S (next_handle (world s))).
Proof.
  intros Ha Hr Hq Hp Ht s1 data.
  assert (Hs1 : s1 = set_rafId (Some (next_handle (world s)))
                       (requestAnimationFrame
                          (configure cfg (set_startTime (now (host s)) s))).2).
  { unfold s1, start. now rewrite Hr, Ha. }
  split; [rewrite Hs1; reflexivity |].
  apply Qle_bool_iff in Ht.
  set (h := next_handle (world s)) in *.
  set (s2 :=
         set_host
           {| clientWidth := clientWidth (host s1);
              clientHeight := clientHeight (host s1);
              devicePixelRatio := devicePixelRatio (host s1);
              hidden := hidden (host s1); now := t |} s1).
  assert (Hpend : pending (world s2) = [h])
    by (unfold s2; rewrite Hs1; cbn; rewrite Hq; reflexivity).
  assert (Hp2 : pausedByVisibility (vars (dequeue h s2)) = false)
    by (unfold s2; rewrite Hs1; exact Hp).
  exists s2, (tick cfg (dequeue h s2)). split; [| split].
  - unfold s2. cbn [step]. rewrite Hs1 at 1. cbn. rewrite Ht. reflexivity.
  - unfold next_frame. rewrite Hpend. cbn [step]. rewrite Hpend.
    rewrite bool_decide_eq_true_2 by apply list_elem_of_singleton, eq_refl.
    reflexivity.
  - unfold tick. rewrite Hp2. cbn [negb].
    unfold data, s2. rewrite Hs1. cbn. rewrite <- !app_assoc.
    repeat split; reflexivity.
Qed.

Lemma first_frame_is_timed_from_start_witness :
  exists s2 s3,
    step (perlin_cfg true) (Clock 500)
      (start (perlin_cfg true) (perlin_engine true desktop ∅)) = Some s2 /\
    next_frame (perlin_cfg true) s2 = Some s3 /\
    uniformData (vars s3) !! 0 = Some (f32_num ((500 - 0) / 1000)).
Proof.
  destruct (first_frame_is_timed_from_start (perlin_cfg true)
              (perlin_engine true desktop ∅) 500)
    as (_ & s2 & s3 & H2 & H3 & _ & Hd & _);
    try reflexivity.
  - vm_compute. discriminate.
  - exists s2, s3. split; [exact H2 |]. split; [exact H3 |].
    rewrite Hd. reflexivity.
Defined.

(** *** The frame loop while visible *)

Lemma next_frame_visible (cfg : Config) (s : State) :
  queue_matches s -> rafId (vars s) <> None ->
  pausedByVisibility (vars s) = false ->
  exists s',
    next_frame cfg s = Some s' /\
    queue_matches s' /\ rafId (vars s') <> None /\
    pausedByVisibility (vars s') = false /\
    submissions s' = S (submissions s) /\
    uploads s' = S (uploads s) /\
    scheduled s' = S (scheduled s) /\
    releases s' = releases s.
Proof.
  intros Hq Hr Hp. unfold queue_matches in Hq.
  destruct (rafId (vars s)) as [h|] eqn:E; [|congruence].
  unfold next_frame. rewrite Hq. cbn. rewrite Hq.
  rewrite bool_decide_eq_true_2 by apply list_elem_of_singleton, eq_refl.
  eexists. split; [reflexivity |].
  unfold tick, queue_matches, submissions, uploads, scheduled, releases.
  cbn. rewrite Hp. cbn.
  rewrite Hq, filter_out_singleton, !count_snoc. cbn.
  repeat split; auto; try discriminate; lia.
Qed.

(** X3.  While the engine is running and visible, every tick uploads the
    uniforms once, submits one frame and requests the next callback: after
    [n] ticks, [n] more frames have been submitted and the engine is still
    running with one callback pending. *)
Theorem visible_ticks_render_each_frame {F : Float32}
    (cfg : Config) (s : State) (n : nat) :
  reachable cfg s ->
  rafId (vars s) <> None ->
  pausedByVisibility (vars s) = false ->
  exists s',
    frames cfg n s = Some s' /\
    submissions s' = submissions s + n /\
    uploads s' = uploads s + n /\
    scheduled s' = scheduled s + n /\
    releases s' = releases s /\
    rafId (vars s') <> None /\
    length (pending (world s')) = 1 /\
    pausedByVisibility (vars s') = false.
Proof.
  intros Hreach. apply (reachable_queue_matches cfg) in Hreach.
  revert s Hreach. induction n as [|n IH]; intros s Hq Hr Hp.
  - exists s. cbn. rewrite !Nat.add_0_r. repeat split; auto.
    unfold queue_matches in Hq. rewrite Hq.
    destruct (rafId (vars s)); [reflexivity | congruence].
  - destruct (next_frame_visible cfg s Hq Hr Hp)
      as (s1 & Hs1 & Hq1 & Hr1 & Hp1 & Hsub & Hup & Hsch & Hrel).
    destruct (IH s1 Hq1 Hr1 Hp1)
      as (s' & Hs' & Hsub' & Hup' & Hsch' & Hrel' & Hr' & Hlen & Hp').
    exists s'. cbn [frames]. rewrite Hs1.
    repeat split; auto; lia.
Qed.

Lemma visible_ticks_render_each_frame_witness :
  exists s',
    frames (perlin_cfg true) 3
      (start (perlin_cfg true) (perlin_engine true desktop ∅)) = Some s' /\
    submissions s' = 3.
Proof.
  destruct (visible_ticks_render_each_frame (F := exact_f32) (perlin_cfg true)
              (start (perlin_cfg true) (perlin_engine true desktop ∅)) 3)
    as (s' & Hs & Hsub & _).
  - eapply reachable_step with (e := Call Start);
      [apply perlin_engine_reachable | reflexivity].
  - discriminate.
  - reflexivity.
  - exists s'. split; [exact Hs | exact Hsub].
Defined.

(** *** Visibility *)

Lemma step_listening (cfg : Config) (e : Event) (s s' : State) :
  step cfg e s = Some s' ->
  listening (world s') = true ->
  listening (world s) = true /\
  (pausedByVisibility (vars s) = hidden (host s) ->
   pausedByVisibility (vars s') = hidden (host s')).
Proof.
  intros Hs. destruct e as [m|h|b|w h r| |t]; cbn in Hs.
  - injection Hs as <-. destruct m; cbn.
    + unfold start. destruct (rafId (vars s)); [auto |].
      destruct (shouldAnimate cfg); cbn; auto.
    + unfold stop. destruct (rafId (vars s)); cbn; auto.
    + discriminate.
  - case_bool_decide; [|discriminate]. injection Hs as <-.
    unfold tick. cbn.
    destruct (pausedByVisibility (vars s)) eqn:Ep; cbn; rewrite ?Ep; auto.
  - injection Hs as <-. cbn.
    destruct (listening (world s)) eqn:El; cbn; [auto | congruence].
  - injection Hs as <-. cbn. auto.
  - injection Hs as <-. destruct (observing (world s)); cbn; auto.
  - destruct (Qle_bool _ _); [|discriminate]. injection Hs as <-. cbn. auto.
Qed.

Lemma reachable_paused {F : Float32} (cfg : Config) (s : State) :
  reachable cfg s ->
  listening (world s) = true ->
  pausedByVisibility (vars s) = hidden (host s).
Proof.
  induction 1 as [plat h n params opts s c Hc | s e s' Hr IH Hs].
  - intros _. unfold createBackground in Hc.
    destruct (gpu plat); [|discriminate]. cbn in Hc.
    destruct (requestAdapter plat _); [|discriminate]. cbn in Hc.
    destruct (getContext plat); [|discriminate]. cbn in Hc.
    injection Hc as <- <- <-. reflexivity.
  - intros Hl. destruct (step_listening cfg e s s' Hs Hl) as [Hl0 Hkeep].
    apply Hkeep, IH, Hl0.
Qed.

(** X4.  As long as the visibility listener is registered (the engine has
    not been destroyed), [pausedByVisibility] equals [document.hidden] in
    every state: a visibility change is never missed, whatever else happens
    in between. *)
Theorem paused_mirrors_hidden {F : Float32} (cfg : Config) (s : State) :
  reachable cfg s ->
  listening (world s) = true ->
  pausedByVisibility (vars s) = hidden (host s).
Proof. apply reachable_paused. Qed.

Lemma paused_mirrors_hidden_witness :
  pausedByVisibility (vars hidden_desktop_engine) = true.
Proof.
  apply (paused_mirrors_hidden (F := exact_f32) (perlin_cfg true)
           hidden_desktop_engine).
  - exact hidden_desktop_engine_reachable.
  - reflexivity.
Defined.

(** *** Geometry *)

(** The geometry [configure] leaves, in one statement. *)
Lemma configure_leaves_valid_geometry (cfg : Config) (s : State) :
  ((1 <= width (vars (configure cfg s)))%Q /\
   (1 <= height (vars (configure cfg s)))%Q) /\
  (1 <= dpr (vars (configure cfg s)))%Q /\
  ((1 <= maxDpr cfg)%Q -> (dpr (vars (configure cfg s)) <= maxDpr cfg)%Q).
Proof.
  split; [split; apply Math_max_1_le |].
  split; [apply configure_dpr_ge_1 | apply clamp_bounds].
Qed.

Lemma configure_sized (cfg : Config) (s : State) :
  Forall sized (trace (world s)) ->
  Forall sized (trace (world (configure cfg s))) /\
  (1 <= dpr (vars (configure cfg s)))%Q /\
  (1 <= width (vars (configure cfg s)))%Q /\
  (1 <= height (vars (configure cfg s)))%Q /\
  ((1 <= maxDpr cfg)%Q ->
   (dpr (vars (configure cfg s)) <= maxDpr cfg)%Q).
Proof.
  intros Ht.
  destruct (configure_leaves_valid_geometry cfg s) as ((Hw & Hh) & Hd & Hm).
  split; [| auto].
  cbn. rewrite <- app_assoc. apply Forall_app. split; [exact Ht |].
  repeat constructor; cbn; [exact Hw | exact Hh].
Qed.

Lemma step_geometry (cfg : Config) (e : Event) (s s' : State) :
  let ok (s : State) :=
    Forall sized (trace (world s)) /\
    (1 <= dpr (vars s))%Q /\ (1 <= width (vars s))%Q /\
    (1 <= height (vars s))%Q /\
    ((1 <= maxDpr cfg)%Q -> (dpr (vars s) <= maxDpr cfg)%Q) in
  step cfg e s = Some s' -> ok s -> ok s'.
Proof.
  intros ok Hs (Ht & Hd & Hw & Hh & Hm).
  assert (Hsnoc : forall (x : State) (e0 : Effect),
            sized e0 -> Forall sized (trace (world x)) ->
            Forall sized (trace (world x) ++ [e0])).
  { intros x e0 He Hx. apply Forall_app. split; [exact Hx |].
    constructor; [exact He | constructor]. }
  destruct e as [m|h|b|w h r| |t]; cbn in Hs.
  - injection Hs as <-. destruct m; cbn.
    + unfold start. destruct (rafId (vars s)); [repeat split; auto |].
      destruct (configure_sized cfg (set_startTime (now (host s)) s) Ht)
        as (Ht' & Hd' & Hw' & Hh' & Hm').
      destruct (shouldAnimate cfg); unfold ok; cbn;
        (split; [| auto]).
      * apply (Hsnoc (configure cfg (set_startTime (now (host s)) s)));
          [exact I | exact Ht'].
      * rewrite <- app_assoc.
        apply Forall_app. split; [exact Ht' |]. repeat constructor.
    + unfold stop. destruct (rafId (vars s)); unfold ok; cbn;
        repeat split; auto.
      apply (Hsnoc s); [exact I | exact Ht].
    + unfold destroy, stop. destruct (rafId (vars s)); unfold ok; cbn;
        (split; [| auto]); rewrite <- ?app_assoc;
        (apply Forall_app; split; [exact Ht | repeat constructor]).
  - case_bool_decide; [|discriminate]. injection Hs as <-.
    unfold tick, ok. cbn.
    destruct (pausedByVisibility (vars s)); cbn; (split; [| auto]);
      rewrite <- ?app_assoc;
      (apply Forall_app; split; [exact Ht | repeat constructor]).
  - injection Hs as <-. unfold ok. cbn.
    destruct (listening (world s)); cbn; auto.
  - injection Hs as <-. unfold ok. cbn. auto.
  - injection Hs as <-. destruct (observing (world s)).
    + now apply configure_sized.
    + unfold ok. auto.
  - destruct (Qle_bool _ _); [|discriminate]. injection Hs as <-.
    unfold ok. cbn. auto.
Qed.

Lemma geometry_invariant {F : Float32} (cfg : Config) (s : State) :
  reachable cfg s ->
  Forall sized (trace (world s)) /\
  (1 <= dpr (vars s))%Q /\
  (1 <= width (vars s))%Q /\
  (1 <= height (vars s))%Q /\
  ((1 <= maxDpr cfg)%Q -> (dpr (vars s) <= maxDpr cfg)%Q).
Proof.
  induction 1 as [plat h n params opts s c Hc | s e s' Hr IH Hs].
  - unfold createBackground in Hc.
    destruct (gpu plat); [|discriminate]. cbn in Hc.
    destruct (requestAdapter plat _); [|discriminate]. cbn in Hc.
    destruct (getContext plat); [|discriminate]. cbn in Hc.
    injection Hc as <- <- <-. apply configure_sized. cbn.
    repeat constructor.
  - exact (step_geometry cfg e s s' Hs IH).
Qed.

(** X5.  In every state of an engine the pixel ratio, the pixel width and
    the pixel height are at least 1, the pixel ratio is at most [maxDpr]
    when [maxDpr] is at least 1, and the canvas has never been given a
    backing store below one pixel in either direction. *)
Theorem geometry_is_always_valid {F : Float32} (cfg : Config) (s : State) :
  reachable cfg s ->
  Forall sized (trace (world s)) /\
  (1 <= dpr (vars s))%Q /\
  (1 <= width (vars s))%Q /\
  (1 <= height (vars s))%Q /\
  ((1 <= maxDpr cfg)%Q -> (dpr (vars s) <= maxDpr cfg)%Q).
Proof. apply geometry_invariant. Qed.

Lemma geometry_is_always_valid_witness :
  (1 <= width (vars hidden_desktop_engine))%Q /\
  (dpr (vars hidden_desktop_engine) <= 3)%Q.
Proof.
  destruct (geometry_is_always_valid (F := exact_f32) (perlin_cfg true)
              hidden_desktop_engine hidden_desktop_engine_reachable)
    as (_ & _ & Hw & _ & Hm).
  split; [exact Hw |]. apply Hm. vm_compute. discriminate.
Defined.

(** *** The parameter object *)

Lemma step_mergedParams (cfg : Config) (e : Event) (s s' : State) :
  step cfg e s = Some s' -> mergedParams (vars s') = mergedParams (vars s).
Proof.
  intros Hs. destruct e as [m|h|b|w h r| |t]; cbn in Hs.
  - injection Hs as <-. destruct m; cbn.
    + unfold start. destruct (rafId (vars s)); [reflexivity |].
      destruct (shouldAnimate cfg); reflexivity.
    + unfold stop. destruct (rafId (vars s)); reflexivity.
    + unfold destroy, stop. destruct (rafId (vars s)); reflexivity.
  - case_bool_decide; [|discriminate]. injection Hs as <-.
    unfold tick. cbn. destruct (pausedByVisibility (vars s)); reflexivity.
  - injection Hs as <-. cbn. destruct (listening (world s)); reflexivity.
  - injection Hs as <-. reflexivity.
  - injection Hs as <-. destruct (observing (world s)); reflexivity.
  - destruct (Qle_bool _ _); [|discriminate]. injection Hs as <-. reflexivity.
Qed.

Lemma run_mergedParams (cfg : Config) (es : list Event) : forall s s' : State,
  run cfg es s = Some s' -> mergedParams (vars s') = mergedParams (vars s).
Proof.
  induction es as [|e es IH]; intros s s' H; cbn in H.
  - now injection H as <-.
  - destruct (step cfg e s) as [s1|] eqn:E; [|discriminate].
    rewrite (IH s1 s' H). now apply (step_mergedParams cfg e).
Qed.

(** X6.  The engine never writes to its parameter object: after any
    sequence of controller calls, frames and host events, it is still the
    merge of the overrides over the defaults that [createBackground] made,
    so an override stays in force and a default is never restored. *)
Theorem mergedParams_is_never_written {F : Float32}
    (plat : Platform) (h : Host) (n : RendererName)
    (params : gmap string Q) (opts : Options.Options)
    (cfg : Config) (s0 : State) (c : gmap string Method)
    (es : list Event) (s : State) :
  createBackground plat h n params opts = Return cfg s0 c ->
  run cfg es s0 = Some s ->
  mergedParams (vars s)
  = Js.spread (Renderer.defaultParams (renderers n)) params.
Proof.
  intros Hc Hrun. rewrite (run_mergedParams cfg es s0 s Hrun).
  now apply created_mergedParams in Hc as [_ ->].
Qed.

Lemma mergedParams_is_never_written_witness :
  exists s,
    run (perlin_cfg true)
      [Call Start; Frame 1; VisibilityChange true; Frame 2; Call Stop;
       Layout 1024 768 (Some 1%Q); Resize; Call Start; Call Destroy]
      (perlin_engine true desktop {[ "speed" := 0.3%Q ]}) = Some s /\
    mergedParams (vars s) !! "speed" = Some 0.3%Q.
Proof.
  destruct (run (perlin_cfg true)
              [Call Start; Frame 1; VisibilityChange true; Frame 2; Call Stop;
               Layout 1024 768 (Some 1%Q); Resize; Call Start; Call Destroy]
              (perlin_engine true desktop {[ "speed" := 0.3%Q ]}))
    as [s|] eqn:E; [| vm_compute in E; discriminate].
  exists s. split; [reflexivity |].
  rewrite (mergedParams_is_never_written (F := exact_f32)
             (capable false) desktop PerlinNoise1 {[ "speed" := 0.3%Q ]}
             no_options (perlin_cfg true)
             (perlin_engine true desktop {[ "speed" := 0.3%Q ]})
             (list_to_map
                [("start", Start); ("stop", Stop); ("destroy", Destroy)])
             _ s (perlin_engine_created true desktop _) E).
  reflexivity.
Defined.

(** *** After destroy *)

Lemma start_idle_animating (cfg : Config) (s : State) :
  shouldAnimate cfg = true -> rafId (vars s) = None ->
  let s1 := start cfg s in
  rafId (vars s1) = Some (next_handle (world s)) /\
  pending (world s1) = pending (world s) ++ [next_handle (world s)] /\
  observing (world s1) = observing (world s) /\
  listening (world s1) = listening (world s) /\
  pausedByVisibility (vars s1) = pausedByVisibility (vars s) /\
  releases s1 = releases s /\
  submissions s1 = submissions s.
Proof.
  intros Ha Hr. unfold start. rewrite Hr, Ha.
  unfold releases, submissions. cbn. rewrite !count_snoc. cbn.
  repeat split; auto; lia.
Qed.

Lemma destroy_leaves (s : State) :
  rafId (vars (destroy s)) = None /\
  pending (world (destroy s)) = pending (world (stop s)) /\
  next_handle (world (destroy s)) = next_handle (world s) /\
  observing (world (destroy s)) = false /\
  listening (world (destroy s)) = false /\
  pausedByVisibility (vars (destroy s)) = pausedByVisibility (vars s) /\
  submissions (destroy s) = submissions s.
Proof.
  unfold destroy, stop, submissions.
  destruct (rafId (vars s)) eqn:E; cbn; rewrite !count_snoc; cbn;
    repeat split; auto; lia.
Qed.

Lemma tick_counts (cfg : Config) (s : State) :
  releases (tick cfg s) = releases s /\
  submissions (tick cfg s)
  = submissions s + (if pausedByVisibility (vars s) then 0 else 1).
Proof.
  unfold tick, releases, submissions.
  destruct (pausedByVisibility (vars s)); cbn; rewrite !count_snoc; cbn;
    split; lia.
Qed.

(** X7.  [destroy] does not disable the controller.  With animation
    enabled, a [start] after [destroy] schedules a frame callback again;
    the engine is then running with both observers gone for good, so a
    resize no longer reconfigures it and a visibility change no longer
    pauses it, and its next frame, when it is not paused, is submitted
    although the uniform buffer has been released. *)
Theorem start_after_destroy_runs_again (cfg : Config) (s : State) :
  shouldAnimate cfg = true ->
  queue_matches s ->
  let s1 := start cfg (destroy s) in
  rafId (vars s1) = Some (next_handle (world s)) /\
  pending (world s1) = [next_handle (world s)] /\
  releases s1 = releases s + 1 /\
  observing (world s1) = false /\
  listening (world s1) = false /\
  step cfg Resize s1 = Some s1 /\
  (forall (b : bool) (s2 : State),
     step cfg (VisibilityChange b) s1 = Some s2 ->
     pausedByVisibility (vars s2) = pausedByVisibility (vars s)) /\
  exists s2,
    next_frame cfg s1 = Some s2 /\
    releases s2 = releases s + 1 /\
    (pausedByVisibility (vars s) = false ->
     submissions s2 = submissions s + 1).
Proof.
  intros Ha Hq s1.
  destruct (stop_queue_matches s Hq) as [Hq0 _].
  destruct (destroy_leaves s) as (Hr & Hp & Hn & Ho & Hl & Hv & Hsub).
  unfold queue_matches in Hq0.
  replace (rafId (vars (stop s))) with (@None nat) in Hq0
    by (unfold stop; destruct (rafId (vars s)) eqn:E; [reflexivity | now rewrite E]).
  rewrite <- Hp in Hq0.
  destruct (start_idle_animating cfg (destroy s) Ha Hr)
    as (Hr1 & Hp1 & Ho1 & Hl1 & Hv1 & Hrel1 & Hsub1).
  fold s1 in Hr1, Hp1, Ho1, Hl1, Hv1, Hrel1, Hsub1.
  rewrite Hn in Hr1, Hp1. rewrite Hq0 in Hp1. cbn in Hp1.
  rewrite Ho in Ho1. rewrite Hl in Hl1. rewrite Hv in Hv1.
  rewrite destroy_releases in Hrel1. rewrite Hsub in Hsub1.
  clearbody s1.
  split; [exact Hr1 |]. split; [exact Hp1 |]. split; [exact Hrel1 |].
  split; [exact Ho1 |]. split; [exact Hl1 |].
  split; [cbn [step]; now rewrite Ho1 |].
  split.
  { intros b s2 H2. cbn in H2. rewrite Hl1 in H2. injection H2 as <-.
    exact Hv1. }
  exists (tick cfg (dequeue (next_handle (world s)) s1)).
  split.
  { unfold next_frame. rewrite Hp1. cbn [step]. rewrite Hp1.
    rewrite bool_decide_eq_true_2 by apply list_elem_of_singleton, eq_refl.
    reflexivity. }
  destruct (tick_counts cfg (dequeue (next_handle (world s)) s1))
    as (Hrel2 & Hsub2).
  split.
  - rewrite Hrel2. exact Hrel1.
  - intros Hvis. rewrite Hsub2.
    change (pausedByVisibility (vars (dequeue (next_handle (world s)) s1)))
      with (pausedByVisibility (vars s1)).
    rewrite Hv1, Hvis.
    change (submissions (dequeue (next_handle (world s)) s1))
      with (submissions s1).
    now rewrite Hsub1.
Qed.

Lemma start_after_destroy_runs_again_witness :
  let s :=
    start (perlin_cfg true)
      (destroy (start (perlin_cfg true) (perlin_engine true desktop ∅))) in
  rafId (vars s) = Some 2 /\ releases s = 1 /\ observing (world s) = false.
Proof.
  intros s.
  destruct (start_after_destroy_runs_again (perlin_cfg true)
              (start (perlin_cfg true) (perlin_engine true desktop ∅)))
    as (Hr & _ & Hrel & Hobs & _); try reflexivity.
  split; [exact Hr |]. split; [exact Hrel | exact Hobs].
Defined.

(** *** What createBackground leaves *)

(** X8.  A created engine is idle: [createBackground] has registered both
    observers and configured the surface once, and that is all.  Nothing
    has been uploaded, submitted, scheduled or released, the scratch array
    is all zero, [pausedByVisibility] is [document.hidden], and no frame
    callback can run before [start]. *)
Theorem created_engine_is_idle {F : Float32}
    (plat : Platform) (h : Host) (n : RendererName)
    (params : gmap string Q) (opts : Options.Options)
    (cfg : Config) (s : State) (c : gmap string Method) :
  createBackground plat h n params opts = Return cfg s c ->
  host s = h /\
  rafId (vars s) = None /\
  pending (world s) = [] /\
  (forall handle : nat, step cfg (Frame handle) s = None) /\
  observing (world s) = true /\
  listening (world s) = true /\
  pausedByVisibility (vars s) = hidden h /\
  uniformData (vars s)
    = replicate (Renderer.uniformFloats (renderers n)) (f32_num 0) /\
  trace (world s)
    = [AddListener;
       RequestAdapter (Js.nullish (Options.powerPreference opts) LowPower);
       RequestDevice; GetContext;
       CreateBuffer (Renderer.uniformFloats (renderers n) * 4); Observe;
       CanvasResize (width (vars s)) (height (vars s)); ContextConfigure] /\
  uploads s = 0 /\ submissions s = 0 /\ scheduled s = 0 /\ releases s = 0.
Proof.
  unfold createBackground. intros H.
  destruct (gpu plat); [|discriminate]. cbn in H.
  destruct (requestAdapter plat _); [|discriminate]. cbn in H.
  destruct (getContext plat); [|discriminate]. cbn in H.
  injection H as <- <- <-. repeat split; reflexivity.
Qed.

Lemma created_engine_is_idle_witness :
  submissions (perlin_engine true desktop ∅) = 0 /\
  step (perlin_cfg true) (Frame 1) (perlin_engine true desktop ∅) = None.
Proof.
  destruct (created_engine_is_idle (F := exact_f32) (capable false) desktop
              PerlinNoise1 ∅ no_options (perlin_cfg true)
              (perlin_engine true desktop ∅)
              (list_to_map
                 [("start", Start); ("stop", Stop); ("destroy", Destroy)]))
    as (_ & _ & _ & Hf & _ & _ & _ & _ & _ & _ & Hsub & _).
  - apply (perlin_engine_created true desktop).
  - split; [exact Hsub | apply Hf].
Defined.

(** X9.  The animation decision: a created engine does not animate exactly
    when [respectReducedMotion] is not switched off and the platform has
    [matchMedia] and reports a reduced-motion preference; in every other
    case, also when [matchMedia] is missing, it animates.  [maxDpr] is 3
    unless given, and the descriptor is the registry's for the name. *)
Theorem animation_is_decided_at_creation {F : Float32}
    (plat : Platform) (h : Host) (n : RendererName)
    (params : gmap string Q) (opts : Options.Options)
    (cfg : Config) (s : State) (c : gmap string Method) :
  createBackground plat h n params opts = Return cfg s c ->
  (shouldAnimate cfg = false <->
     Options.respectReducedMotion opts <> Some false /\
     matchMedia plat = Some true) /\
  maxDpr cfg = Js.nullish (Options.maxDpr opts) 3%Q /\
  descriptor cfg = renderers n.
Proof.
  unfold createBackground. intros H.
  destruct (gpu plat); [|discriminate]. cbn in H.
  destruct (requestAdapter plat _); [|discriminate]. cbn in H.
  destruct (getContext plat); [|discriminate]. cbn in H.
  injection H as <- <- <-. cbn. split; [| split; reflexivity].
  destruct (Options.respectReducedMotion opts) as [[|]|],
           (matchMedia plat) as [[|]|]; cbn;
    split; try discriminate; try (intros [? ?]; congruence);
    try (intros _; split; congruence).
Qed.

Lemma animation_is_decided_at_creation_witness :
  shouldAnimate (perlin_cfg false) = false /\
  maxDpr (perlin_cfg false) = 3%Q.
Proof.
  destruct (animation_is_decided_at_creation (F := exact_f32) (capable true)
              desktop PerlinNoise1 ∅ no_options (perlin_cfg false)
              (perlin_engine false desktop ∅)
              (list_to_map
                 [("start", Start); ("stop", Stop); ("destroy", Destroy)]))
    as (Ha & Hm & _).
  - apply (perlin_engine_created false desktop).
  - split; [| exact Hm]. apply Ha. split; [discriminate | reflexivity].
Defined.

(** ** Further properties of the uniform writer *)

Lemma perlinNoise1_writeUniforms_cells {F : Float32}
    (buf : list f32) (time width height dpr : Q) (p : gmap string Q) :
  perlinNoise1_writeUniforms buf time width height dpr p
  = take (length buf) (perlinNoise1_cells time width height dpr p)
      ++ drop 14 buf.
Proof.
  do 14 (destruct buf as [|? buf]; [reflexivity |]).
  cbn. now rewrite take_nil.
Qed.

(** X10.  [perlinNoise1.writeUniforms] on any buffer: it overwrites
    whichever of the cells 0 to 13 the buffer has, each with its own value,
    and nothing else, so the length is kept (a short buffer is not grown), no
    cell below 14 keeps old data, and a later write replaces an earlier one
    completely; writing twice with the same arguments is writing once. *)
Theorem perlinNoise1_writeUniforms_overwrites {F : Float32}
    (buf : list f32) (time width height dpr : Q) (p : gmap string Q) :
  let w := perlinNoise1_writeUniforms in
  w buf time width height dpr p
    = take (length buf) (perlinNoise1_cells time width height dpr p)
        ++ drop 14 buf /\
  length (w buf time width height dpr p) = length buf /\
  (forall (time' width' height' dpr' : Q) (p' : gmap string Q),
     w (w buf time' width' height' dpr' p') time width height dpr p
     = w buf time width height dpr p) /\
  (forall buf' : list f32,
     length buf' = length buf -> drop 14 buf' = drop 14 buf ->
     w buf' time width height dpr p = w buf time width height dpr p).
Proof.
  intros w. unfold w.
  assert (Hlen : forall b t x y d q,
            length (perlinNoise1_writeUniforms b t x y d q) = length b).
  { intros. unfold perlinNoise1_writeUniforms, store.
    now rewrite !length_insert. }
  split; [apply perlinNoise1_writeUniforms_cells |].
  split; [apply Hlen |]. split.
  - intros t' x' y' d' p'.
    rewrite (perlinNoise1_writeUniforms_cells (perlinNoise1_writeUniforms _ _ _ _ _ _)).
    rewrite Hlen.
    rewrite (perlinNoise1_writeUniforms_cells buf t' x' y' d' p').
    rewrite (perlinNoise1_writeUniforms_cells buf time width height dpr p).
    f_equal.
    destruct (decide (length buf <= 14)) as [Hle | Hgt].
    + rewrite (drop_ge buf 14) by lia. rewrite app_nil_r.
      apply drop_ge. rewrite length_take. cbn. lia.
    + apply drop_app_length'. rewrite length_take. cbn. lia.
  - intros buf' Hl Hd.
    rewrite (perlinNoise1_writeUniforms_cells buf'),
            (perlinNoise1_writeUniforms_cells buf).
    now rewrite Hl, Hd.
Qed.

(** ** Uploads and the uniform buffer *)

Lemma perlinNoise1_writeUniforms_full {F : Float32}
    (buf : list f32) (time width height dpr : Q) (p : gmap string Q) :
  length buf = 16 -> drop 14 buf = replicate 2 (f32_num 0) ->
  perlinNoise1_writeUniforms buf time width height dpr p
  = perlinNoise1_cells time width height dpr p ++ [f32_num 0; f32_num 0].
Proof.
  intros Hl Hd. rewrite perlinNoise1_writeUniforms_cells, Hl, Hd. reflexivity.
Qed.

Lemma reachable_descriptor {F : Float32} (cfg : Config) (s : State) :
  reachable cfg s -> descriptor cfg = perlinNoise1.
Proof.
  induction 1 as [plat h n params opts s c Hc | s e s' Hr IH Hs]; [| exact IH].
  apply created_mergedParams in Hc as [-> _]. now destruct n.
Qed.

(** The scratch array and the uploads so far fit a buffer of 16 floats. *)
Lemma fits_keep (s s' : State) (l : list Effect) :
  uniformData (vars s') = uniformData (vars s) ->
  trace (world s') = trace (world s) ++ l ->
  Forall (fits 16 14) l ->
  (length (uniformData (vars s)) = 16 /\
   drop 14 (uniformData (vars s)) = replicate 2 (f32_num 0)) /\
  Forall (fits 16 14) (trace (world s)) ->
  (length (uniformData (vars s')) = 16 /\
   drop 14 (uniformData (vars s')) = replicate 2 (f32_num 0)) /\
  Forall (fits 16 14) (trace (world s')).
Proof.
  intros -> -> Hl [Hu Ht]. split; [exact Hu |].
  apply Forall_app. now split.
Qed.

Lemma fits_same (s s' : State) :
  uniformData (vars s') = uniformData (vars s) ->
  trace (world s') = trace (world s) ->
  (length (uniformData (vars s)) = 16 /\
   drop 14 (uniformData (vars s)) = replicate 2 (f32_num 0)) /\
  Forall (fits 16 14) (trace (world s)) ->
  (length (uniformData (vars s')) = 16 /\
   drop 14 (uniformData (vars s')) = replicate 2 (f32_num 0)) /\
  Forall (fits 16 14) (trace (world s')).
Proof. now intros -> ->. Qed.

Lemma fits_drawFrame {F : Float32} (cfg : Config) (t : Q) (s : State) :
  descriptor cfg = perlinNoise1 ->
  (length (uniformData (vars s)) = 16 /\
   drop 14 (uniformData (vars s)) = replicate 2 (f32_num 0)) /\
  Forall (fits 16 14) (trace (world s)) ->
  (length (uniformData (vars (drawFrame cfg t s))) = 16 /\
   drop 14 (uniformData (vars (drawFrame cfg t s)))
   = replicate 2 (f32_num 0)) /\
  Forall (fits 16 14) (trace (world (drawFrame cfg t s))).
Proof.
  intros Hd [[Hl Hz] Ht]. unfold drawFrame. rewrite Hd. cbn.
  rewrite (perlinNoise1_writeUniforms_full _ _ _ _ _ _ Hl Hz).
  split; [split; reflexivity |].
  rewrite <- app_assoc. apply Forall_app. split; [exact Ht |].
  repeat constructor.
Qed.

Lemma step_fits {F : Float32} (cfg : Config) (e : Event) (s s' : State) :
  descriptor cfg = perlinNoise1 ->
  step cfg e s = Some s' ->
  (length (uniformData (vars s)) = 16 /\
   drop 14 (uniformData (vars s)) = replicate 2 (f32_num 0)) /\
  Forall (fits 16 14) (trace (world s)) ->
  (length (uniformData (vars s')) = 16 /\
   drop 14 (uniformData (vars s')) = replicate 2 (f32_num 0)) /\
  Forall (fits 16 14) (trace (world s')).
Proof.
  intros Hd Hs H. destruct e as [m|h|b|w h r| |t]; cbn in Hs.
  - injection Hs as <-. destruct m; cbn [call].
    + unfold start. destruct (rafId (vars s)); [exact H |].
      destruct (shouldAnimate cfg).
      * eapply (fits_keep s); [reflexivity | | | exact H].
        -- cbn. rewrite <- !app_assoc. reflexivity.
        -- repeat constructor.
      * apply fits_drawFrame; [exact Hd |].
        eapply (fits_keep s); [reflexivity | | | exact H].
        -- cbn. rewrite <- !app_assoc. reflexivity.
        -- repeat constructor.
    + unfold stop. destruct (rafId (vars s)); [| exact H].
      eapply (fits_keep s); [reflexivity | reflexivity | | exact H].
      repeat constructor.
    + unfold destroy, stop. destruct (rafId (vars s));
        (eapply (fits_keep s);
         [reflexivity | cbn; rewrite <- !app_assoc; reflexivity
         | repeat constructor | exact H]).
  - case_bool_decide; [|discriminate]. injection Hs as <-.
    unfold tick.
    change (pausedByVisibility (vars (dequeue h s)))
      with (pausedByVisibility (vars s)).
    destruct (pausedByVisibility (vars s)); cbn [negb].
    + eapply (fits_keep s); [reflexivity | reflexivity | | exact H].
      repeat constructor.
    + eapply (fits_keep (drawFrame cfg _ (dequeue h s)));
        [reflexivity | reflexivity | repeat constructor |].
      apply fits_drawFrame; [exact Hd |].
      now apply (fits_same s).
  - injection Hs as <-. cbn.
    destruct (listening (world s)); now apply (fits_same s).
  - injection Hs as <-. now apply (fits_same s).
  - injection Hs as <-. destruct (observing (world s)); [| exact H].
    eapply (fits_keep s); [reflexivity | | | exact H].
    + cbn. rewrite <- !app_assoc. reflexivity.
    + repeat constructor.
  - destruct (Qle_bool _ _); [|discriminate]. injection Hs as <-.
    now apply (fits_same s).
Qed.

Lemma created_fits {F : Float32} plat h n params opts cfg s c :
  createBackground plat h n params opts = Return cfg s c ->
  (length (uniformData (vars s)) = 16 /\
   drop 14 (uniformData (vars s)) = replicate 2 (f32_num 0)) /\
  Forall (fits 16 14) (trace (world s)).
Proof.
  unfold createBackground. intros H.
  destruct (gpu plat); [|discriminate]. cbn in H.
  destruct (requestAdapter plat _); [|discriminate]. cbn in H.
  destruct (getContext plat); [|discriminate]. cbn in H.
  injection H as <- <- <-. destruct n. cbn.
  split; [split; reflexivity |]. repeat constructor.
Qed.

Lemma reachable_fits {F : Float32} (cfg : Config) (s : State) :
  reachable cfg s ->
  (length (uniformData (vars s)) = 16 /\
   drop 14 (uniformData (vars s)) = replicate 2 (f32_num 0)) /\
  Forall (fits 16 14) (trace (world s)).
Proof.
  intros Hreach. pose proof (reachable_descriptor cfg s Hreach) as Hd.
  induction Hreach as [plat h n params opts s c Hc | s e s' Hr IH Hs].
  - now apply created_fits in Hc.
  - apply (step_fits cfg e s s' Hd Hs), IH.
Qed.

(** X11.  In every state of an engine, the scratch array has the 16 floats
    of the descriptor, every upload made so far wrote exactly 16 floats,
    which is the size the uniform buffer was created with (64 bytes), and
    the two padding cells of every upload are zero. *)
Theorem uploads_fit_the_uniform_buffer {F : Float32}
    (cfg : Config) (s : State) :
  reachable cfg s ->
  length (uniformData (vars s)) = Renderer.uniformFloats (descriptor cfg) /\
  (forall data : list f32,
     WriteBuffer data ∈ trace (world s) ->
     length data = 16 /\
     data !! 14 = Some (f32_num 0) /\ data !! 15 = Some (f32_num 0)) /\
  (forall bytes : nat,
     CreateBuffer bytes ∈ trace (world s) -> bytes = 16 * 4).
Proof.
  intros Hreach. pose proof (reachable_descriptor cfg s Hreach) as Hd.
  destruct (reachable_fits cfg s Hreach) as [[Hl Hz] Ht].
  rewrite Forall_forall in Ht.
  split; [rewrite Hd; exact Hl |]. split.
  - intros data Hin. destruct (Ht _ Hin) as [Hlen Hdrop].
    split; [exact Hlen |].
    pose proof (lookup_drop data 14 0) as H0.
    pose proof (lookup_drop data 14 1) as H1.
    rewrite Hdrop in H0, H1. cbn in H0, H1. auto.
  - intros bytes Hin. exact (Ht _ Hin).
Qed.

Lemma uploads_fit_the_uniform_buffer_witness :
  length (uniformData (vars hidden_desktop_engine)) = 16.
Proof.
  destruct (uploads_fit_the_uniform_buffer (F := exact_f32) (perlin_cfg true)
              hidden_desktop_engine hidden_desktop_engine_reachable)
    as (Hl & _).
  exact Hl.
Defined.

(** ** The two engines *)

Lemma take_4_writeUniforms {F : Float32}
    (buf : list f32) (time width height dpr : Q) (p : gmap string Q) :
  length buf = 16 ->
  take 4 (perlinNoise1_writeUniforms buf time width height dpr p)
  = Float32Array_of [time; width; height; dpr].
Proof.
  intros Hl. rewrite perlinNoise1_writeUniforms_cells, Hl. reflexivity.
Qed.

Lemma std_view_emit (e : Effect) (s : State) :
  std_view (emit e s) = emit (std_effect e) (std_view s).
Proof. unfold std_view, emit. cbn. now rewrite map_app. Qed.

Lemma std_view_configure (cfg : Config) (s : State) :
  std_view (configure cfg s) = Procedural.configure (std_consts cfg) (std_view s).
Proof.
  unfold configure, Procedural.configure. now rewrite !std_view_emit.
Qed.

Lemma std_view_drawFrame {F : Float32} (cfg : Config) (t : Q) (s : State) :
  descriptor cfg = perlinNoise1 ->
  length (uniformData (vars s)) = 16 ->
  std_view (drawFrame cfg t s) = Legacy.drawFrame t (std_view s).
Proof.
  intros Hd Hl. unfold drawFrame, Legacy.drawFrame.
  rewrite !std_view_emit. cbn [std_effect]. rewrite Hd. cbn.
  now rewrite (take_4_writeUniforms _ _ _ _ _ _ Hl).
Qed.

Lemma std_view_request (r : option nat) (s : State) :
  std_view (set_rafId (Some (requestAnimationFrame s).1)
              (requestAnimationFrame s).2)
  = set_rafId (Some (requestAnimationFrame (std_view s)).1)
      (requestAnimationFrame (std_view s)).2.
Proof. unfold std_view. cbn. now rewrite map_app. Qed.

Lemma std_view_stop (s : State) :
  std_view (stop s) = Procedural.stop (std_view s).
Proof.
  unfold stop, Procedural.stop. cbn.
  destruct (rafId (vars s)); [| reflexivity].
  unfold std_view. cbn. now rewrite map_app.
Qed.

Lemma std_view_destroy (s : State) :
  std_view (destroy s) = Procedural.destroy (std_view s).
Proof.
  unfold destroy, Procedural.destroy, uniformBuffer_destroy,
    removeEventListener, ro_disconnect.
  rewrite <- std_view_stop.
  unfold std_view. cbn. now rewrite !map_app.
Qed.

Lemma std_view_start {F : Float32} (cfg : Config) (s : State) :
  descriptor cfg = perlinNoise1 ->
  length (uniformData (vars s)) = 16 ->
  std_view (start cfg s) = Procedural.start (std_consts cfg) (std_view s).
Proof.
  intros Hd Hl. unfold start, Procedural.start. cbn.
  destruct (rafId (vars s)); [reflexivity |].
  destruct (shouldAnimate cfg).
  - unfold std_view. cbn. now rewrite !map_app.
  - rewrite std_view_drawFrame by assumption.
    now rewrite std_view_configure.
Qed.

Lemma std_view_tick {F : Float32} (cfg : Config) (s : State) :
  descriptor cfg = perlinNoise1 ->
  length (uniformData (vars s)) = 16 ->
  std_view (tick cfg s) = Legacy.tick (std_view s).
Proof.
  intros Hd Hl. unfold tick, Legacy.tick. cbn.
  destruct (pausedByVisibility (vars s)); cbn [negb].
  - unfold std_view. cbn. now rewrite map_app.
  - rewrite <- (std_view_drawFrame cfg _ s Hd Hl).
    unfold std_view. cbn. now rewrite !map_app.
Qed.

Lemma step_std_view {F : Float32} (cfg : Config) (e : Event) (s : State) :
  descriptor cfg = perlinNoise1 ->
  length (uniformData (vars s)) = 16 ->
  Procedural.step (std_consts cfg) e (std_view s)
  = std_view <$> step cfg e s.
Proof.
  intros Hd Hl. destruct e as [m|h|b|w h r| |t]; cbn [step Procedural.step].
  - destruct m; cbn [call Procedural.call fmap option_fmap option_map].
    + now rewrite std_view_start.
    + now rewrite std_view_stop.
    + now rewrite std_view_destroy.
  - change (pending (world (std_view s))) with (pending (world s)).
    case_bool_decide; [| reflexivity].
    cbn [fmap option_fmap option_map].
    rewrite (std_view_tick cfg (dequeue h s) Hd Hl). reflexivity.
  - cbn. destruct (listening (world s)); reflexivity.
  - reflexivity.
  - cbn [fmap option_fmap option_map].
    change (observing (world (std_view s))) with (observing (world s)).
    destruct (observing (world s)); [| reflexivity].
    now rewrite std_view_configure.
  - change (now (host (std_view s))) with (now (host s)).
    destruct (Qle_bool _ _); reflexivity.
Qed.

Lemma run_std_view {F : Float32} (cfg : Config) (es : list Event) :
  descriptor cfg = perlinNoise1 ->
  forall s : State,
    (length (uniformData (vars s)) = 16 /\
     drop 14 (uniformData (vars s)) = replicate 2 (f32_num 0)) /\
    Forall (fits 16 14) (trace (world s)) ->
    Procedural.run (std_consts cfg) es (std_view s)
    = std_view <$> run cfg es s.
Proof.
  intros Hd. induction es as [|e es IH]; intros s Hs; [reflexivity |].
  cbn [run Procedural.run].
  rewrite (step_std_view cfg e s Hd (proj1 (proj1 Hs))).
  destruct (step cfg e s) as [s1|] eqn:E; [| reflexivity].
  cbn [fmap option_fmap option_map].
  apply IH. exact (step_fits cfg e s s1 Hd E Hs).
Qed.

Lemma created_std_view {F : Float32}
    plat h n params opts cfg s0 (c : gmap string Method) :
  createBackground plat h n params opts = Return cfg s0 c ->
  Procedural.createWebGPUProceduralBackground plat h opts
  = Procedural.Return (std_consts cfg) (std_view s0) c.
Proof.
  intros Hc. unfold createBackground in Hc.
  unfold Procedural.createWebGPUProceduralBackground.
  destruct (gpu plat); [|discriminate]. cbn in Hc |- *.
  destruct (requestAdapter plat _); [|discriminate]. cbn in Hc |- *.
  destruct (getContext plat); [|discriminate]. cbn in Hc |- *.
  injection Hc as <- <- <-. destruct n. reflexivity.
Qed.

(** X12.  Seen through the four standard uniforms, the descriptor-driven
    engine is the earlier engine.  On the same platform, host and options,
    whenever [createBackground] succeeds, [createWebGPUProceduralBackground]
    succeeds with the same constants and the same state, and after any
    sequence of controller calls, frames and host events the two engines
    are again in the same state: the same events are possible, and the
    traces agree call for call once each upload is cut to its first four
    floats. *)
Theorem earlier_engine_is_the_standard_view {F : Float32}
    (plat : Platform) (h : Host) (n : RendererName)
    (params : gmap string Q) (opts : Options.Options)
    (cfg : Config) (s0 : State) (c : gmap string Method)
    (es : list Event) :
  createBackground plat h n params opts = Return cfg s0 c ->
  Procedural.createWebGPUProceduralBackground plat h opts
    = Procedural.Return (std_consts cfg) (std_view s0) c /\
  Procedural.run (std_consts cfg) es (std_view s0)
    = std_view <$> run cfg es s0.
Proof.
  intros Hc. split.
  - exact (created_std_view plat h n params opts cfg s0 c Hc).
  - apply run_std_view.
    + apply created_mergedParams in Hc as [-> _]. now destruct n.
    + now apply created_fits in Hc.
Qed.

Lemma earlier_engine_is_the_standard_view_witness :
  Procedural.run (F := exact_f32) (std_consts (perlin_cfg true))
    [Call Start; Frame 1; Frame 2; Call Stop]
    (std_view (perlin_engine true desktop ∅))
  = std_view
      <$> run (perlin_cfg true) [Call Start; Frame 1; Frame 2; Call Stop]
            (perlin_engine true desktop ∅).
Proof.
  apply (earlier_engine_is_the_standard_view (F := exact_f32)
           (capable false) desktop PerlinNoise1 ∅ no_options (perlin_cfg true)
           (perlin_engine true desktop ∅)
           (list_to_map
              [("start", Start); ("stop", Stop); ("destroy", Destroy)])).
  apply (perlin_engine_created true desktop).
Defined.

(** ** The page scripts *)

Lemma controller_start :
  (list_to_map [("start", Start); ("stop", Stop); ("destroy", Destroy)]
     : gmap string Method) !! "start" = Some Start.
Proof. reflexivity. Qed.

(** X13.  The page script either is rejected by [createBackground], on
    exactly the three capability gaps and before anything is rendered or
    scheduled, or starts the engine: then a frame callback is pending and
    nothing is rendered yet, unless the platform reports a reduced-motion
    preference, in which case exactly one frame has been rendered and no
    callback is pending.  [bg.start] is never missing. *)
Theorem main_starts_or_rejects {F : Float32} (plat : Platform) (h : Host) :
  match main plat h with
  | Rejected message done =>
      (gpu plat = false \/ requestAdapter plat LowPower = false \/
       getContext plat = false) /\
      count is_submit done = 0 /\ count is_request_frame done = 0
  | NotAFunction _ => False
  | Started cfg s =>
      (gpu plat = true /\ requestAdapter plat LowPower = true /\
       getContext plat = true) /\
      (shouldAnimate cfg = false <-> matchMedia plat = Some true) /\
      if shouldAnimate cfg
      then rafId (vars s) = Some 1 /\ pending (world s) = [1] /\
           scheduled s = 1 /\ submissions s = 0
      else rafId (vars s) = None /\ pending (world s) = [] /\
           scheduled s = 0 /\ submissions s = 1
  end.
Proof.
  unfold main, createBackground. cbn [main_options Options.powerPreference
    Options.respectReducedMotion Options.maxDpr Js.nullish].
  destruct (gpu plat); cbn [negb]; [| repeat split; auto].
  destruct (requestAdapter plat LowPower); cbn [negb];
    [| repeat split; auto].
  destruct (getContext plat); cbn [negb]; [| repeat split; auto].
  rewrite controller_start.
  destruct (matchMedia plat) as [[|]|]; cbn;
    repeat split; auto; discriminate.
Qed.

(** X14.  The first page script, on the earlier engine, ends as the
    current one does: rejected with the same error after the same calls, or
    started in the state the current script reaches, seen through the four
    standard uniforms. *)
Theorem main_procedural_is_the_standard_view {F : Float32}
    (plat : Platform) (h : Host) :
  main_procedural plat h
  = match main plat h with
    | Rejected message done => Rejected message done
    | NotAFunction member => NotAFunction member
    | Started cfg s => Started (std_consts cfg) (std_view s)
    end.
Proof.
  unfold main_procedural, main.
  destruct (createBackground plat h PerlinNoise1 ∅ main_options)
    as [message done | cfg s bg] eqn:Hc.
  - unfold createBackground in Hc.
    unfold Procedural.createWebGPUProceduralBackground.
    destruct (gpu plat); cbn in Hc |- *; [| now injection Hc as <- <-].
    destruct (requestAdapter plat _); cbn in Hc |- *;
      [| now injection Hc as <- <-].
    destruct (getContext plat); cbn in Hc |- *;
      [discriminate | now injection Hc as <- <-].
  - rewrite (created_std_view _ _ _ _ _ _ _ _ Hc).
    destruct (controller_members _ _ _ _ _ _ _ _ Hc) as (-> & _).
    cbn [call Procedural.call].
    rewrite std_view_start; [reflexivity | |].
    + now apply created_mergedParams in Hc as [-> _].
    + now apply created_fits in Hc.
Qed.

(** ** The parameter panel *)

Lemma bind_keys_bindings
    (meta : option (gmap string Pane.ParamMeta)) (keys : list string) :
  forall p : Pane.Pane,
    Pane.title (Pane.bind_keys meta keys p) = Pane.title p /\
    Pane.bindings (Pane.bind_keys meta keys p)
    = Pane.bindings p
        ++ map (fun key =>
                  (key, Pane.options_for (meta ≫= (fun mm => mm !! key))))
             (filter
                (fun key =>
                   (meta ≫= (fun mm => mm !! key)) ≫= Pane.hidden
                   <> Some true)
                keys).
Proof.
  induction keys as [|key keys IH]; intros p.
  - cbn. now rewrite app_nil_r.
  - cbn [Pane.bind_keys]. rewrite filter_cons.
    destruct ((meta ≫= (fun mm => mm !! key)) ≫= Pane.hidden)
      as [[|]|] eqn:E.
    + rewrite decide_False by (intros H; now apply H). apply IH.
    + rewrite decide_True by discriminate.
      destruct (IH (Pane.addBinding key
                      (Pane.options_for (meta ≫= (fun mm => mm !! key))) p))
        as [-> ->].
      cbn. now rewrite <- app_assoc.
    + rewrite decide_True by discriminate.
      destruct (IH (Pane.addBinding key
                      (Pane.options_for (meta ≫= (fun mm => mm !! key))) p))
        as [-> ->].
      cbn. now rewrite <- app_assoc.
Qed.

(** X15.  [buildPane] binds exactly the keys of the parameter object whose
    hints do not hide them, once each and in the order of the object, each
    with the options made from its own hints; a hidden key is never bound.
    Without hints every key is bound, with no options.  The title is
    "Parameters" unless one is given. *)
Theorem buildPane_binds_the_visible_keys
    (params : list (string * Q))
    (meta : option (gmap string Pane.ParamMeta)) (title : option string) :
  let hints (key : string) := meta ≫= (fun mm => mm !! key) in
  let pane := Pane.buildPane params meta title in
  Pane.title pane = Js.nullish title "Parameters" /\
  Pane.bindings pane
  = map (fun key => (key, Pane.options_for (hints key)))
      (filter (fun key => hints key ≫= Pane.hidden <> Some true)
         (params.*1)) /\
  (forall (key : string) (opts : gmap string Pane.Hint),
     (key, opts) ∈ Pane.bindings pane ->
     key ∈ params.*1 /\ hints key ≫= Pane.hidden <> Some true) /\
  length (Pane.bindings pane) <= length params /\
  (meta = None ->
   Pane.bindings pane = map (fun key => (key, ∅)) (params.*1)).
Proof.
  intros hints pane.
  destruct (bind_keys_bindings meta (params.*1)
              {| Pane.title := Js.nullish title "Parameters";
                 Pane.bindings := [] |}) as [Ht Hb].
  cbn in Ht, Hb. fold (Pane.buildPane params meta title) in Ht, Hb.
  fold pane in Ht, Hb.
  split; [exact Ht |]. split; [exact Hb |]. split; [| split].
  - intros key opts Hin. rewrite Hb in Hin.
    apply list_elem_of_fmap in Hin as (k & Heq & Hk).
    injection Heq as -> _. now apply list_elem_of_filter in Hk as [? ?].
  - rewrite Hb, length_map.
    etransitivity; [apply length_filter |]. now rewrite length_fmap.
  - intros ->. rewrite Hb. clear Hb Ht. cbn.
    f_equal. induction (params.*1) as [|k ks IH]; [reflexivity |].
    rewrite filter_cons_True by discriminate. f_equal. exact IH.
Qed.

(** X16.  The options made for a key carry exactly the hints that are
    defined: [label], [min], [max] and [step] are each present with the
    hint's value when the hint has one and absent otherwise, and no other
    option, in particular not [hidden], is ever passed on. *)
Theorem options_carry_the_defined_hints (m : option Pane.ParamMeta) :
  Pane.options_for m !! "label" = Pane.Text <$> (m ≫= Pane.label) /\
  Pane.options_for m !! "min" = Pane.Number <$> (m ≫= Pane.min) /\
  Pane.options_for m !! "max" = Pane.Number <$> (m ≫= Pane.max) /\
  Pane.options_for m !! "step" = Pane.Number <$> (m ≫= Pane.step) /\
  Pane.options_for m !! "hidden" = None /\
  (forall k : string,
     k <> "label" -> k <> "min" -> k <> "max" -> k <> "step" ->
     Pane.options_for m !! k = None).
Proof.
  unfold Pane.options_for.
  destruct m as [[hid [l|] [mi|] [ma|] [st|]]|]; cbn;
    repeat split;
    try (intros k H1 H2 H3 H4);
    repeat first
      [ rewrite lookup_insert_eq
      | rewrite lookup_insert_ne by congruence
      | rewrite lookup_empty ];
    reflexivity.
Qed.

Lemma perlinNoise1_writeUniforms_overwrites_witness :
  perlinNoise1_writeUniforms (F := exact_f32)
    [f32_nan; f32_nan; f32_nan] 1 800 600 2 ∅
  = [f32_num 1; f32_num 800; f32_num 600] /\
  perlinNoise1_writeUniforms (F := exact_f32)
    (replicate 16 f32_nan) 1 800 600 2 ∅
  = perlinNoise1_writeUniforms (F := exact_f32)
      (replicate 14 (f32_num 7) ++ [f32_nan; f32_nan]) 1 800 600 2 ∅.
Proof.
  destruct (perlinNoise1_writeUniforms_overwrites (F := exact_f32)
              [f32_nan; f32_nan; f32_nan] 1 800 600 2 ∅) as (H3 & _).
  destruct (perlinNoise1_writeUniforms_overwrites (F := exact_f32)
              (replicate 14 (f32_num 7) ++ [f32_nan; f32_nan])
              1 800 600 2 ∅) as (_ & _ & _ & Hsame).
  split; [rewrite H3; reflexivity |].
  apply Hsame; reflexivity.
Defined.

Lemma buildPane_binds_the_visible_keys_witness :
  (Pane.bindings
     (Pane.buildPane perlinNoise1_defaults (Some pad_hints) None)).*1
  = ["baseR"; "baseG"; "baseB"; "colAr"; "colAg"; "colAb";
     "colBr"; "colBg"; "colBb"; "speed"] /\
  ~ ("_pad0", ∅)
      ∈ Pane.bindings
          (Pane.buildPane perlinNoise1_defaults (Some pad_hints) None) /\
  length (Pane.bindings (Pane.buildPane perlinNoise1_defaults None None))
  = 12.
Proof.
  destruct (buildPane_binds_the_visible_keys perlinNoise1_defaults
              (Some pad_hints) None) as (_ & Hb & Hvis & _).
  destruct (buildPane_binds_the_visible_keys perlinNoise1_defaults
              None None) as (_ & _ & _ & _ & Hall).
  split; [rewrite Hb; vm_compute; reflexivity |]. split.
  - intros Hin. apply Hvis in Hin as [_ Hshown]. apply Hshown.
    vm_compute. reflexivity.
  - rewrite (Hall eq_refl). reflexivity.
Defined.

Lemma options_carry_the_defined_hints_witness :
  Pane.options_for (pad_hints !! "speed") !! "label"
  = Some (Pane.Text "Speed") /\
  Pane.options_for (pad_hints !! "speed") !! "step" = None /\
  Pane.options_for (pad_hints !! "speed") !! "title" = None.
Proof.
  destruct (options_carry_the_defined_hints (pad_hints !! "speed"))
    as (Hl & _ & _ & Hs & _ & Hk).
  split; [rewrite Hl; reflexivity |].
  split; [rewrite Hs; reflexivity |].
  apply Hk; discriminate.
Defined.

(** ** The earlier engine's invariants *)

Lemma run_reachable {F : Float32} (cfg : Config) (es : list Event) :
  forall s s' : State,
    reachable cfg s -> run cfg es s = Some s' -> reachable cfg s'.
Proof.
  induction es as [|e es IH]; intros s s' Hr H; cbn in H.
  - now injection H as <-.
  - destruct (step cfg e s) as [s1|] eqn:E; [|discriminate].
    apply (IH s1 s'); [| exact H]. now apply (reachable_step cfg s e s1).
Qed.

Lemma count_std_effect (p : Effect -> bool) (t : list Effect) :
  (forall e, p (std_effect e) = p e) ->
  count p (map std_effect t) = count p t.
Proof.
  intros Hp. unfold count. induction t as [|e t IH]; [reflexivity |].
  cbn. rewrite Hp. destruct (p e); cbn; now rewrite IH.
Qed.

(** Whatever the earlier engine can be created as, the current one can. *)
Lemma procedural_created {F : Float32}
    plat h opts k s' (c : gmap string Method) :
  Procedural.createWebGPUProceduralBackground plat h opts
    = Procedural.Return k s' c ->
  exists cfg s,
    createBackground plat h PerlinNoise1 ∅ opts = Return cfg s c /\
    k = std_consts cfg /\ s' = std_view s.
Proof.
  intros H.
  destruct (createBackground plat h PerlinNoise1 ∅ opts)
    as [message done | cfg s bg] eqn:Hc.
  - unfold createBackground in Hc.
    unfold Procedural.createWebGPUProceduralBackground in H.
    destruct (gpu plat); cbn in Hc, H; [| discriminate].
    destruct (requestAdapter plat _); cbn in Hc, H; [| discriminate].
    destruct (getContext plat); cbn in Hc, H; discriminate.
  - rewrite (created_std_view _ _ _ _ _ _ _ _ Hc) in H.
    injection H as <- <- <-. eauto.
Qed.

(** X17.  The invariants of the current engine hold of the earlier one.
    In every state [createWebGPUProceduralBackground]'s engine reaches, at
    most one frame callback is pending and it is the one [rafId] names, the
    pixel ratio and pixel sizes are at least 1, [pausedByVisibility] equals
    [document.hidden] while the listener is registered, and an engine
    created without animation has [rafId] null and has never requested a
    frame. *)
Theorem earlier_engine_keeps_the_invariants {F : Float32}
    (plat : Platform) (h : Host) (opts : Options.Options)
    (k : Procedural.Consts) (s0 : State) (c : gmap string Method)
    (es : list Event) (s : State) :
  Procedural.createWebGPUProceduralBackground plat h opts
    = Procedural.Return k s0 c ->
  Procedural.run k es s0 = Some s ->
  queue_matches s /\
  length (pending (world s)) <= 1 /\
  ((1 <= dpr (vars s))%Q /\ (1 <= width (vars s))%Q /\
   (1 <= height (vars s))%Q) /\
  (listening (world s) = true ->
   pausedByVisibility (vars s) = hidden (host s)) /\
  (Procedural.shouldAnimate k = false ->
   rafId (vars s) = None /\ scheduled s = 0).
Proof.
  intros Hc Hrun.
  destruct (procedural_created plat h opts k s0 c Hc)
    as (cfg & t0 & Hc' & -> & ->).
  assert (Hsim : Procedural.run (std_consts cfg) es (std_view t0)
                 = std_view <$> run cfg es t0).
  { apply run_std_view.
    - apply created_mergedParams in Hc' as [-> _]. reflexivity.
    - now apply created_fits in Hc'. }
  rewrite Hsim in Hrun.
  destruct (run cfg es t0) as [t|] eqn:Ht; [| discriminate].
  cbn in Hrun. injection Hrun as <-.
  assert (Hreach : reachable cfg t).
  { apply (run_reachable cfg es t0); [| exact Ht].
    now apply (reachable_init cfg plat h PerlinNoise1 ∅ opts t0 c). }
  split; [exact (reachable_queue_matches cfg t Hreach) |].
  split; [exact (reachable_one_loop cfg t Hreach) |].
  split.
  { destruct (geometry_invariant cfg t Hreach) as (_ & Hd & Hw & Hh & _).
    auto. }
  split; [exact (reachable_paused cfg t Hreach) |].
  intros Ha. split; [exact (reachable_still cfg t Ha Hreach) |].
  unfold scheduled. cbn.
  rewrite count_std_effect by (now intros []).
  exact (reachable_never_scheduled cfg t Ha Hreach).
Qed.

Lemma earlier_engine_keeps_the_invariants_witness :
  exists s,
    Procedural.run (F := exact_f32) (std_consts (perlin_cfg true))
      [Call Start; Frame 1; Call Start; VisibilityChange true; Frame 2]
      (std_view (perlin_engine true desktop ∅)) = Some s /\
    length (pending (world s)) <= 1 /\
    pausedByVisibility (vars s) = hidden (host s).
Proof.
  destruct (Procedural.run (F := exact_f32) (std_consts (perlin_cfg true))
              [Call Start; Frame 1; Call Start; VisibilityChange true; Frame 2]
              (std_view (perlin_engine true desktop ∅)))
    as [s|] eqn:E; [| vm_compute in E; discriminate].
  exists s. split; [reflexivity |].
  destruct (earlier_engine_keeps_the_invariants (F := exact_f32)
              (capable false) desktop no_options
              (std_consts (perlin_cfg true))
              (std_view (perlin_engine true desktop ∅))
              (list_to_map
                 [("start", Start); ("stop", Stop); ("destroy", Destroy)])
              [Call Start; Frame 1; Call Start; VisibilityChange true; Frame 2]
              s
              (created_std_view _ _ _ _ _ _ _ _
                 (perlin_engine_created true desktop ∅)) E)
    as (_ & Hone & _ & Hp & _).
  split; [exact Hone |]. apply Hp.
  vm_compute in E. injection E as <-. reflexivity.
Defined.

(** *** The clock never runs backwards *)

Lemma step_clock (cfg : Config) (e : Event) (s s' : State) :
  step cfg e s = Some s' ->
  (startTime (vars s) <= now (host s))%Q ->
  (startTime (vars s') <= now (host s'))%Q.
Proof.
  intros Hs H. destruct e as [m|h|b|w h r| |t]; cbn in Hs.
  - injection Hs as <-. destruct m; cbn [call].
    + unfold start. destruct (rafId (vars s)); [exact H |].
      destruct (shouldAnimate cfg); cbn; apply Qle_refl.
    + unfold stop. destruct (rafId (vars s)); exact H.
    + unfold destroy, stop. destruct (rafId (vars s)); exact H.
  - case_bool_decide; [|discriminate]. injection Hs as <-.
    unfold tick. cbn. destruct (pausedByVisibility (vars s)); exact H.
  - injection Hs as <-. cbn. destruct (listening (world s)); exact H.
  - injection Hs as <-. exact H.
  - injection Hs as <-. destruct (observing (world s)); exact H.
  - destruct (Qle_bool _ _) eqn:E; [|discriminate]. injection Hs as <-.
    cbn. apply Qle_bool_iff in E. now apply Qle_trans with (now (host s)).
Qed.

(** X18.  With a clock that does not run backwards, [startTime] is never
    later than the current time, in every state of an engine; so the time a
    frame is written for, [(now - startTime) / 1000], is never negative. *)
Theorem elapsed_time_is_never_negative {F : Float32}
    (cfg : Config) (s : State) :
  reachable cfg s ->
  (startTime (vars s) <= now (host s))%Q /\
  (0 <= (now (host s) - startTime (vars s)) / 1000)%Q.
Proof.
  intros Hreach.
  assert (H : (startTime (vars s) <= now (host s))%Q).
  { induction Hreach as [plat h n params opts s c Hc | s e s' Hr IH Hs].
    - unfold createBackground in Hc.
      destruct (gpu plat); [|discriminate]. cbn in Hc.
      destruct (requestAdapter plat _); [|discriminate]. cbn in Hc.
      destruct (getContext plat); [|discriminate]. cbn in Hc.
      injection Hc as <- <- <-. cbn. apply Qle_refl.
    - exact (step_clock cfg e s s' Hs IH). }
  split; [exact H |].
  apply Qle_shift_div_l; [reflexivity | lra].
Qed.

Lemma elapsed_time_is_never_negative_witness :
  (startTime (vars hidden_desktop_engine)
   <= now (host hidden_desktop_engine))%Q.
Proof.
  apply (elapsed_time_is_never_negative (F := exact_f32) (perlin_cfg true)
           hidden_desktop_engine hidden_desktop_engine_reachable).
Defined.
